(** * Device triggers: validation and attachment

    A shallow embedding of
    [homeassistant/components/device_automation/trigger.py].

    The module is a dispatch shim.  Everything it talks to (the platform
    resolver, the device registry, the config-entry manager and the
    platform itself) is a collaborator that lives outside the file, so the
    embedding takes the collaborators as parameters and records every call
    made to one of them, together with its outcome, in a trace. *)

From Stdlib Require Import ZArith.
From stdpp Require Import base strings list gmap.

Set Warnings "-register-all".
Local Open Scope string_scope.
Local Open Scope list_scope.

(** ** Python values and exceptions *)

(** The values a configuration dictionary may hold ([Any] in the source). *)
Inductive value : Type :=
| VNone
| VBool (b : bool)
| VInt (z : Z)
| VStr (s : string)
| VList (l : list value).

(** [ConfigType] is [dict[str, Any]]. *)
Abbreviation ConfigType := (gmap string value).

(** The exceptions that matter to the module.
    [InvalidDeviceAutomationConfig] carries what [str(err)] returns, which
    is the empty string when it is raised without arguments.  [Invalid] is
    [vol.Invalid] with its message; its second component is [__cause__],
    set by [raise ... from err].  [KeyError] carries the missing key and
    [AttributeError] the missing attribute. *)
Inductive exn : Type :=
| InvalidDeviceAutomationConfig (msg : string)
| Invalid (msg : string) (cause : option exn)
| KeyError (key : string)
| AttributeError (name : string)
| OtherError (cls msg : string).

(** Python's [a or b] on strings: the empty string is falsy. *)
Definition str_or (a b : string) : string :=
  match a with
  | EmptyString => b
  | String _ _ => a
  end.

(** [s != v] where [s] is a [str] and [v] any value. *)
Definition str_ne (s : string) (v : value) : bool :=
  match v with
  | VStr s' => if decide (s = s') then false else true
  | _ => true
  end.

Inductive result (A : Type) : Type :=
| Ok (a : A)
| Err (e : exn).
Arguments Ok {A} a.
Arguments Err {A} e.

(** Modelled from the spec: the two configuration keys [CONF_DOMAIN] and
    [CONF_DEVICE_ID] of [homeassistant.const], which the spec names
    [domain] and [device_id]. *)
Definition CONF_DOMAIN : string := "domain".
Definition CONF_DEVICE_ID : string := "device_id".

Inductive DeviceAutomationType : Type := TRIGGER | CONDITION | ACTION.

(** A config entry, as far as the module reads it. *)
Record ConfigEntry : Type := {
  entry_id : string;
  domain : string
}.

(** A device of the registry: [config_entries] lists the identifiers in
    the order iteration yields them. *)
Record DeviceEntry : Type := {
  device_entry_id : string;
  config_entries : list string
}.

Section Trigger.

(** The state of the running instance ([hass]) and the opaque types that
    are only passed through. *)
Variable HomeAssistant : Type.
Variable TriggerActionType : Type.
Variable TriggerInfo : Type.
Variable CALLBACK_TYPE : Type.

(** A call to a collaborator: it returns or raises, and may change the
    state of the instance. *)
Definition call (A : Type) : Type := HomeAssistant → result A * HomeAssistant.

(** [DeviceAutomationTriggerProtocol]: every member is optional, so each
    is an [option]; [hasattr] is [is_Some].  The two listing members are
    never used by this module. *)
Record DeviceAutomationTriggerProtocol : Type := {
  TRIGGER_SCHEMA : option (ConfigType → call ConfigType);
  platform_async_validate_trigger_config : option (ConfigType → call ConfigType);
  platform_async_attach_trigger :
    option (ConfigType → TriggerActionType → TriggerInfo → call CALLBACK_TYPE)
}.

(** The registry object returned by [dr.async_get(hass)]. *)
Record DeviceRegistry : Type := {
  async_get : value → call (option DeviceEntry)
}.

(** The collaborators of the module. *)
Record Collaborators : Type := {
  async_get_device_automation_platform :
    value → DeviceAutomationType → call DeviceAutomationTriggerProtocol;
  dr_async_get : call DeviceRegistry;
  async_get_entry : string → call (option ConfigEntry);
  async_wait_component : ConfigEntry → call bool
}.

(** One call to a collaborator with its outcome. *)
Inductive event : Type :=
| EGetPlatform (d : value) (t : DeviceAutomationType)
    (r : result DeviceAutomationTriggerProtocol)
| ESchema (config : ConfigType) (r : result ConfigType)
| EDrAsyncGet (r : result DeviceRegistry)
| ERegistryAsyncGet (device_id : value) (r : result (option DeviceEntry))
| EGetEntry (id : string) (r : result (option ConfigEntry))
| EWaitComponent (entry : ConfigEntry) (r : result bool)
| EValidate (config : ConfigType) (r : result ConfigType)
| EAttach (config : ConfigType) (action : TriggerActionType)
    (trigger_info : TriggerInfo) (r : result CALLBACK_TYPE).

(** ** The monad of the module: state, exceptions and a trace *)

Definition M (A : Type) : Type :=
  HomeAssistant → result A * HomeAssistant * list event.

Definition ret {A} (a : A) : M A := λ h, (Ok a, h, []).

Definition raise {A} (e : exn) : M A := λ h, (Err e, h, []).

Definition bind {A B} (m : M A) (f : A → M B) : M B := λ h,
  match m h with
  | (Ok a, h', t) => let '(r, h'', t') := f a h' in (r, h'', t ++ t')
  | (Err e, h', t) => (Err e, h', t)
  end.

Definition perform {A} (c : call A) (ev : result A → event) : M A := λ h,
  let '(r, h') := c h in (r, h', [ev r]).

(** [try: m  except InvalidDeviceAutomationConfig as err: handler]; the
    handler receives [str(err)], the message [err] carries. *)
Definition try_except_InvalidDeviceAutomationConfig {A}
    (m : M A) (handler : string → M A) : M A := λ h,
  match m h with
  | (Err (InvalidDeviceAutomationConfig msg), h', t) =>
      let '(r, h'', t') := handler msg h' in
      (r, h'', t ++ t')
  | other => other
  end.

Notation "x <- m ;; k" := (bind m (λ x, k))
  (at level 100, m at next level, right associativity).

(** ** The module *)

Variable env : Collaborators.

(** [config[key]] *)
Definition getitem (config : ConfigType) (key : string) : M value :=
  match config !! key with
  | Some v => ret v
  | None => raise (KeyError key)
  end.

(** Lines 62-64 and 100-102:
    [await async_get_device_automation_platform(hass, config[CONF_DOMAIN],
    DeviceAutomationType.TRIGGER)]. *)
Definition get_platform (config : ConfigType) : M DeviceAutomationTriggerProtocol :=
  d <- getitem config CONF_DOMAIN ;;
  perform (async_get_device_automation_platform env d TRIGGER)
          (EGetPlatform d TRIGGER).

(** Lines 69-70: [dr.async_get(hass).async_get(config[CONF_DEVICE_ID])]. *)
Definition get_device (config : ConfigType) : M (option DeviceEntry) :=
  registry <- perform (dr_async_get env) EDrAsyncGet ;;
  device_id <- getitem config CONF_DEVICE_ID ;;
  perform (async_get registry device_id) (ERegistryAsyncGet device_id).

(** Lines 73-80: the loop over [device.config_entries]; its value is
    [device_config_entry] after the loop. *)
Fixpoint find_device_config_entry (config : ConfigType)
    (entry_ids : list string) : M (option ConfigEntry) :=
  match entry_ids with
  | [] => ret None
  | id :: rest =>
      entry <- perform (async_get_entry env id) (EGetEntry id) ;;
      match entry with
      | None => find_device_config_entry config rest
      | Some entry =>
          d <- getitem config CONF_DOMAIN ;;
          if str_ne (domain entry) d
          then find_device_config_entry config rest
          else ret (Some entry)
      end
  end.

(** Lines 68-88: what follows the [hasattr] test when the platform has
    [async_validate_trigger_config], here [validator]. *)
Definition validate_dynamic (validator : ConfigType → call ConfigType)
    (config : ConfigType) : M ConfigType :=
  device <- get_device config ;;
  match device with
  | None => raise (InvalidDeviceAutomationConfig "")
  | Some device =>
      device_config_entry <-
        find_device_config_entry config (config_entries device) ;;
      match device_config_entry with
      | None => raise (InvalidDeviceAutomationConfig "")
      | Some entry =>
          ready <- perform (async_wait_component env entry)
                           (EWaitComponent entry) ;;
          if negb ready
          then ret config
          else perform (validator config) (EValidate config)
      end
  end.

(** Lines 62-88: the body of the [try]. *)
Definition validate_body (config : ConfigType) : M ConfigType :=
  platform <- get_platform config ;;
  match platform_async_validate_trigger_config platform with
  | None =>
      match TRIGGER_SCHEMA platform with
      | None => raise (AttributeError "TRIGGER_SCHEMA")
      | Some schema => perform (schema config) (ESchema config)
      end
  | Some validator => validate_dynamic validator config
  end.

(** Lines 89-90: the [except] clause, where [str_err] is [str(err)]. *)
Definition on_invalid_config {A} (str_err : string) : M A :=
  raise (Invalid (str_or str_err "Invalid trigger configuration")
                 (Some (InvalidDeviceAutomationConfig str_err))).

(** Lines 57-90. *)
Definition async_validate_trigger_config (config : ConfigType) : M ConfigType :=
  try_except_InvalidDeviceAutomationConfig (validate_body config) on_invalid_config.

(** Lines 93-103. *)
Definition async_attach_trigger (config : ConfigType)
    (action : TriggerActionType) (trigger_info : TriggerInfo) : M CALLBACK_TYPE :=
  platform <- get_platform config ;;
  match platform_async_attach_trigger platform with
  | None => raise (AttributeError "async_attach_trigger")
  | Some attach => perform (attach config action trigger_info)
                           (EAttach config action trigger_info)
  end.

(** ** What a trace says *)

(** The exception a call raised, if it raised. *)
Definition outcome_exn {A} (r : result A) : option exn :=
  match r with
  | Ok _ => None
  | Err e => Some e
  end.

Definition event_exn (ev : event) : option exn :=
  match ev with
  | EGetPlatform _ _ r => outcome_exn r
  | ESchema _ r => outcome_exn r
  | EDrAsyncGet r => outcome_exn r
  | ERegistryAsyncGet _ r => outcome_exn r
  | EGetEntry _ r => outcome_exn r
  | EWaitComponent _ r => outcome_exn r
  | EValidate _ r => outcome_exn r
  | EAttach _ _ _ r => outcome_exn r
  end.

(** Some call recorded in [t] raised [e]. *)
Definition raised_by_collaborator (t : list event) (e : exn) : Prop :=
  ∃ ev, ev ∈ t ∧ event_exn ev = Some e.

(** Calls to the device registry or to the config-entry manager. *)
Definition touches_registries (ev : event) : bool :=
  match ev with
  | EDrAsyncGet _ | ERegistryAsyncGet _ _ | EGetEntry _ _ | EWaitComponent _ _ => true
  | _ => false
  end.

(** What the [except] clause makes of an outcome of the [try] body. *)
Definition translated {A} (r : result A) : result A :=
  match r with
  | Err (InvalidDeviceAutomationConfig msg) =>
      Err (Invalid (str_or msg "Invalid trigger configuration")
                   (Some (InvalidDeviceAutomationConfig msg)))
  | other => other
  end.

(** ** Running the monad *)

Lemma bind_Ok {A B} (m : M A) (f : A → M B) h a h' t :
  m h = (Ok a, h', t) →
  bind m f h = (let '(r, h'', t') := f a h' in (r, h'', t ++ t')).
Proof. intros Hm. unfold bind. now rewrite Hm. Qed.

Lemma bind_Err {A B} (m : M A) (f : A → M B) h e h' t :
  m h = (Err e, h', t) → bind m f h = (Err e, h', t).
Proof. intros Hm. unfold bind. now rewrite Hm. Qed.

(** The [except] clause acts on the outcome only: state and trace are
    those of the body. *)
Lemma try_except_translated {A} (m : M A) h :
  try_except_InvalidDeviceAutomationConfig m on_invalid_config h =
  (translated (m h).1.1, (m h).1.2, (m h).2).
Proof.
  unfold try_except_InvalidDeviceAutomationConfig, on_invalid_config, raise.
  destruct (m h) as [[[a|e] h'] t]; simpl; [reflexivity|].
  destruct e; simpl; try reflexivity.
  now rewrite app_nil_r.
Qed.

Lemma async_validate_trigger_config_run config h r h' t :
  validate_body config h = (r, h', t) →
  async_validate_trigger_config config h = (translated r, h', t).
Proof.
  intros Hb. unfold async_validate_trigger_config.
  rewrite try_except_translated, Hb. reflexivity.
Qed.

(** Once the platform is resolved and has a dynamic validator, the body
    is the dynamic part run after the resolution. *)
Lemma validate_body_dynamic config platform validator h0 h1 t1 :
  get_platform config h0 = (Ok platform, h1, t1) →
  platform_async_validate_trigger_config platform = Some validator →
  validate_body config h0 =
  (let '(r, h, t) := validate_dynamic validator config h1 in (r, h, t1 ++ t)).
Proof.
  intros Hp Hv. unfold validate_body.
  rewrite (bind_Ok _ _ _ _ _ _ Hp), Hv. reflexivity.
Qed.

Lemma get_platform_run config d h :
  config !! CONF_DOMAIN = Some d →
  get_platform config h =
  (let '(r, h') := async_get_device_automation_platform env d TRIGGER h in
   (r, h', [EGetPlatform d TRIGGER r])).
Proof.
  intros Hd. unfold get_platform, getitem, bind. rewrite Hd. simpl.
  unfold perform.
  destruct (async_get_device_automation_platform env d TRIGGER h) as [[p|e] h'];
    reflexivity.
Qed.

(** The static path, run. *)
Lemma validate_static_run config d platform schema h0 h1 r h2 :
  config !! CONF_DOMAIN = Some d →
  async_get_device_automation_platform env d TRIGGER h0 = (Ok platform, h1) →
  platform_async_validate_trigger_config platform = None →
  TRIGGER_SCHEMA platform = Some schema →
  schema config h1 = (r, h2) →
  async_validate_trigger_config config h0
  = (translated r, h2, [EGetPlatform d TRIGGER (Ok platform); ESchema config r]).
Proof.
  intros Hd Hp Hv Hs Hr.
  apply async_validate_trigger_config_run.
  unfold validate_body.
  erewrite bind_Ok; [|rewrite (get_platform_run _ _ _ Hd), Hp; reflexivity].
  rewrite Hv, Hs. unfold perform. rewrite Hr. reflexivity.
Qed.

(** The dynamic path with a ready entry, run. *)
Lemma validate_ready_run
    config platform validator device entry h0 h1 h2 h3 h4 h5 t1 t2 t3 r :
  get_platform config h0 = (Ok platform, h1, t1) →
  platform_async_validate_trigger_config platform = Some validator →
  get_device config h1 = (Ok (Some device), h2, t2) →
  find_device_config_entry config (config_entries device) h2
    = (Ok (Some entry), h3, t3) →
  async_wait_component env entry h3 = (Ok true, h4) →
  validator config h4 = (r, h5) →
  async_validate_trigger_config config h0
    = (translated r, h5,
       t1 ++ t2 ++ t3 ++ [EWaitComponent entry (Ok true); EValidate config r]).
Proof.
  intros Hp Hv Hd Hf Hw Hr.
  apply async_validate_trigger_config_run.
  rewrite (validate_body_dynamic _ _ _ _ _ _ Hp Hv).
  unfold validate_dynamic.
  rewrite (bind_Ok _ _ _ _ _ _ Hd); simpl.
  rewrite (bind_Ok _ _ _ _ _ _ Hf); simpl.
  unfold bind, perform. rewrite Hw; simpl. rewrite Hr. reflexivity.
Qed.

(** ** Claims on the whole operation *)

(** C1.  On the dynamic-validation path, when the wait for the matched
    config entry reports that the entry will never be ready, [validate]
    returns the configuration it was given, and raises nothing. *)
Theorem C1_never_ready_returns_config
    config platform validator device entry h0 h1 h2 h3 h4 t1 t2 t3 :
  get_platform config h0 = (Ok platform, h1, t1) →
  platform_async_validate_trigger_config platform = Some validator →
  get_device config h1 = (Ok (Some device), h2, t2) →
  find_device_config_entry config (config_entries device) h2
    = (Ok (Some entry), h3, t3) →
  async_wait_component env entry h3 = (Ok false, h4) →
  async_validate_trigger_config config h0
    = (Ok config, h4, t1 ++ t2 ++ t3 ++ [EWaitComponent entry (Ok false)]).
Proof.
  intros Hp Hv Hd Hf Hw.
  apply (async_validate_trigger_config_run config h0 (Ok config)).
  rewrite (validate_body_dynamic _ _ _ _ _ _ Hp Hv).
  unfold validate_dynamic.
  rewrite (bind_Ok _ _ _ _ _ _ Hd); simpl.
  rewrite (bind_Ok _ _ _ _ _ _ Hf); simpl.
  unfold bind, perform. rewrite Hw. reflexivity.
Qed.

(** C2.  When the resolved platform has no dynamic validator, [validate]
    returns what the platform's static [TRIGGER_SCHEMA] returns on the
    configuration, and the only calls made are the resolution and the
    schema: none goes to the device registry or the config-entry
    manager. *)
Theorem C2_static_schema config d platform schema h0 h1 r h2 :
  config !! CONF_DOMAIN = Some d →
  async_get_device_automation_platform env d TRIGGER h0 = (Ok platform, h1) →
  platform_async_validate_trigger_config platform = None →
  TRIGGER_SCHEMA platform = Some schema →
  schema config h1 = (r, h2) →
  let t := [EGetPlatform d TRIGGER (Ok platform); ESchema config r] in
  async_validate_trigger_config config h0 = (translated r, h2, t)
  ∧ (∀ validated, r = Ok validated → translated r = Ok validated)
  ∧ Forall (λ ev, touches_registries ev = false) t.
Proof.
  intros Hd Hp Hv Hs Hr t. split; [|split].
  - now apply (validate_static_run _ _ _ schema _ h1).
  - intros validated ->. reflexivity.
  - repeat constructor.
Qed.

(** C5.  On the dynamic-validation path, when a config entry of the
    declared domain is found and the wait reports it ready, [validate]
    calls the platform's dynamic validator on the configuration it was
    given and returns what the validator returns. *)
Theorem C5_ready_delegates
    config platform validator device entry h0 h1 h2 h3 h4 h5 t1 t2 t3 r :
  get_platform config h0 = (Ok platform, h1, t1) →
  platform_async_validate_trigger_config platform = Some validator →
  get_device config h1 = (Ok (Some device), h2, t2) →
  find_device_config_entry config (config_entries device) h2
    = (Ok (Some entry), h3, t3) →
  async_wait_component env entry h3 = (Ok true, h4) →
  validator config h4 = (r, h5) →
  async_validate_trigger_config config h0
    = (translated r, h5,
       t1 ++ t2 ++ t3 ++ [EWaitComponent entry (Ok true); EValidate config r])
  ∧ (∀ validated, r = Ok validated → translated r = Ok validated).
Proof.
  intros Hp Hv Hd Hf Hw Hr. split; [|now intros validated ->].
  now apply (validate_ready_run _ platform validator device entry _ h1 h2 h3 h4).
Qed.

(** ** Where a raised exception comes from *)

Lemma raised_app_l t1 t2 e :
  raised_by_collaborator t1 e → raised_by_collaborator (t1 ++ t2) e.
Proof. intros (ev & Hin & He). exists ev. split; [|done]. apply elem_of_app; auto. Qed.

Lemma raised_app_r t1 t2 e :
  raised_by_collaborator t2 e → raised_by_collaborator (t1 ++ t2) e.
Proof. intros (ev & Hin & He). exists ev. split; [|done]. apply elem_of_app; auto. Qed.

Lemma raised_cons ev t e :
  raised_by_collaborator t e → raised_by_collaborator (ev :: t) e.
Proof. apply (raised_app_r [ev]). Qed.

Lemma perform_run {A} (c : call A) (ev : result A → event) h r h' t :
  perform c ev h = (r, h', t) → c h = (r, h') ∧ t = [ev r].
Proof.
  unfold perform. destruct (c h) as [r0 h0]. intros [= <- <- <-]. done.
Qed.

Lemma perform_raises {A} (c : call A) (ev : result A → event) h e h' t :
  (∀ r, event_exn (ev r) = outcome_exn r) →
  perform c ev h = (Err e, h', t) → raised_by_collaborator t e.
Proof.
  intros Hev [_ ->]%perform_run. exists (ev (Err e)).
  split; [apply list_elem_of_singleton; reflexivity|]. now rewrite Hev.
Qed.

Lemma getitem_run config key h r h' t :
  getitem config key h = (r, h', t) →
  h' = h ∧ t = [] ∧
  match config !! key with
  | Some v => r = Ok v
  | None => r = Err (KeyError key)
  end.
Proof.
  unfold getitem. destruct (config !! key); intros [= <- <- <-]; done.
Qed.

(** An exception out of a block is raised by a collaborator, or is the
    [KeyError] of a missing key. *)
Definition from_collaborator_or_key (config : ConfigType) (key : string)
    (t : list event) (e : exn) : Prop :=
  raised_by_collaborator t e ∨ (e = KeyError key ∧ config !! key = None).

Lemma get_platform_raises config h e h' t :
  get_platform config h = (Err e, h', t) →
  from_collaborator_or_key config CONF_DOMAIN t e.
Proof.
  unfold get_platform, bind.
  destruct (getitem config CONF_DOMAIN h) as [[[d|e0] h0] t0] eqn:Hg.
  - destruct (perform _ _ h0) as [[r1 h1] t1] eqn:Hp. intros [= -> <- <-].
    left. apply raised_app_r. eapply perform_raises; [|exact Hp]. done.
  - intros [= -> <- <-]. apply getitem_run in Hg as (_ & _ & Hg).
    right. destruct (config !! CONF_DOMAIN); [discriminate|].
    injection Hg as ->. done.
Qed.

Lemma get_device_raises config h e h' t :
  get_device config h = (Err e, h', t) →
  from_collaborator_or_key config CONF_DEVICE_ID t e.
Proof.
  unfold get_device, bind.
  destruct (perform (dr_async_get env) EDrAsyncGet h) as [[[reg|e0] h0] t0] eqn:Hr.
  - destruct (getitem config CONF_DEVICE_ID h0) as [[[v|e1] h1] t1] eqn:Hg.
    + destruct (perform _ _ h1) as [[r2 h2] t2] eqn:Hp. intros [= -> <- <-].
      left. do 2 apply raised_app_r. eapply perform_raises; [|exact Hp]. done.
    + intros [= -> <- <-]. apply getitem_run in Hg as (_ & _ & Hg).
      right. destruct (config !! CONF_DEVICE_ID); [discriminate|].
      injection Hg as ->. done.
  - intros [= -> <- <-]. left. eapply perform_raises; [|exact Hr]. done.
Qed.

Lemma find_device_config_entry_raises config ids h e h' t :
  find_device_config_entry config ids h = (Err e, h', t) →
  from_collaborator_or_key config CONF_DOMAIN t e.
Proof.
  revert h h' t. induction ids as [|id rest IH]; intros h h' t; simpl.
  - unfold ret. discriminate.
  - unfold bind at 1.
    destruct (perform _ _ h) as [[[entry|e0] h0] t0] eqn:Hp.
    + assert (Hrest : ∀ h1 t1,
        find_device_config_entry config rest h0 = (Err e, h1, t1) →
        from_collaborator_or_key config CONF_DOMAIN (t0 ++ t1) e).
      { intros h1 t1 [Hc|Hk]%IH; [left; now apply raised_app_r|now right]. }
      destruct entry as [entry|].
      * unfold bind at 1.
        destruct (getitem config CONF_DOMAIN h0) as [[[d|e1] h1] t1] eqn:Hg;
          apply getitem_run in Hg as (-> & -> & Hg).
        -- destruct (str_ne (domain entry) d).
           ++ destruct (find_device_config_entry config rest h0)
                as [[r2 h2] t2] eqn:Hf.
              intros [= -> <- <-]. simpl. eapply Hrest; reflexivity.
           ++ unfold ret. discriminate.
        -- intros [= -> <- <-]. right.
           destruct (config !! CONF_DOMAIN); [discriminate|].
           injection Hg as ->. done.
      * destruct (find_device_config_entry config rest h0)
          as [[r2 h2] t2] eqn:Hf.
        intros [= -> <- <-]. eapply Hrest; reflexivity.
    + intros [= -> <- <-]. left. eapply perform_raises; [|exact Hp]. done.
Qed.

(** ** The scan over the device's config entries *)

(** One step of the loop, whatever the lookup does. *)
Lemma find_device_config_entry_cons config v id rest h r h1 :
  config !! CONF_DOMAIN = Some v →
  async_get_entry env id h = (Ok r, h1) →
  find_device_config_entry config (id :: rest) h =
  match r with
  | Some entry =>
      if str_ne (domain entry) v
      then let '(o, h', t) := find_device_config_entry config rest h1 in
           (o, h', EGetEntry id (Ok r) :: t)
      else (Ok (Some entry), h1, [EGetEntry id (Ok r)])
  | None =>
      let '(o, h', t) := find_device_config_entry config rest h1 in
      (o, h', EGetEntry id (Ok r) :: t)
  end.
Proof.
  intros Hv Hg. simpl. unfold bind at 1. unfold perform at 1. rewrite Hg.
  destruct r as [entry|]; [|reflexivity].
  unfold getitem, bind, ret. rewrite Hv.
  destruct (str_ne (domain entry) v); [|reflexivity].
  destruct (find_device_config_entry config rest h1) as [[o h'] t]. reflexivity.
Qed.

Lemma str_ne_false s v : str_ne s v = false ↔ v = VStr s.
Proof.
  destruct v; simpl; try (split; [discriminate|congruence]).
  destruct (decide (s = s0)) as [->|Hne]; split; congruence.
Qed.

Section ReadOnlyEntries.

(** The config-entry manager as a read-only table: a lookup returns
    what the table holds and leaves the instance as it was. *)
Variable entries : string → option ConfigEntry.
Hypothesis async_get_entry_reads :
  ∀ id h, async_get_entry env id h = (Ok (entries id), h).

Variable config : ConfigType.
Variable declared : value.
Hypothesis config_domain : config !! CONF_DOMAIN = Some declared.

(** The record of one lookup. *)
Definition looked_up (id : string) : event := EGetEntry id (Ok (entries id)).

(** [selected] is the first entry of the declared domain among [ids],
    and [t] the lookups made to find it. *)
Definition first_match (ids : list string)
    (selected : option ConfigEntry) (t : list event) : Prop :=
  match selected with
  | Some entry =>
      ∃ pre id post,
        ids = pre ++ id :: post ∧ entries id = Some entry ∧
        declared = VStr (domain entry) ∧
        (∀ id' entry', id' ∈ pre → entries id' = Some entry' →
                       declared ≠ VStr (domain entry')) ∧
        t = map looked_up (pre ++ [id])
  | None =>
      (∀ id entry, id ∈ ids → entries id = Some entry →
                   declared ≠ VStr (domain entry)) ∧
      t = map looked_up ids
  end.

Lemma first_match_skip id rest selected t :
  (∀ entry, entries id = Some entry → declared ≠ VStr (domain entry)) →
  first_match rest selected t →
  first_match (id :: rest) selected (looked_up id :: t).
Proof.
  intros Hno. destruct selected as [entry|]; simpl.
  - intros (pre & id0 & post & -> & He & Hd & Hpre & ->).
    exists (id :: pre), id0, post. repeat split; try done.
    intros id' entry' Hin He'.
    apply elem_of_cons in Hin as [->|Hin]; [now apply Hno|].
    now apply (Hpre id').
  - intros [Hall ->]. split; [|reflexivity].
    intros id0 entry Hin He.
    apply elem_of_cons in Hin as [->|Hin]; [now apply Hno|].
    now apply (Hall id0).
Qed.

Lemma find_device_config_entry_first_match ids h :
  ∃ selected t,
    find_device_config_entry config ids h = (Ok selected, h, t) ∧
    first_match ids selected t.
Proof.
  induction ids as [|id rest IH].
  - exists None, []. split; [reflexivity|]. split; [|reflexivity].
    intros id entry Hin. inversion Hin.
  - rewrite (find_device_config_entry_cons _ _ _ _ _ _ _
               config_domain (async_get_entry_reads id h)).
    destruct IH as (selected & t & Hrun & Hsel). rewrite Hrun.
    destruct (entries id) as [entry|] eqn:He.
    + destruct (str_ne (domain entry) declared) eqn:Hne.
      * exists selected, (looked_up id :: t). unfold looked_up at 1.
        rewrite He. split; [reflexivity|].
        apply first_match_skip; [|done].
        intros entry' Heq Hd. rewrite He in Heq. injection Heq as <-.
        apply str_ne_false in Hd. congruence.
      * apply str_ne_false in Hne.
        exists (Some entry), [looked_up id]. unfold looked_up at 1.
        rewrite He. split; [reflexivity|].
        exists [], id, rest. repeat split; try done.
        intros id' entry' Hin. inversion Hin.
    + exists selected, (looked_up id :: t). unfold looked_up at 1.
      rewrite He. split; [reflexivity|].
      apply first_match_skip; [|done]. intros entry Heq.
      rewrite He in Heq. discriminate.
Qed.

(** The identifiers the config-entry manager resolves. *)
Definition resolvable (ids : list string) : list string :=
  filter (λ id, is_Some (entries id)) ids.

Lemma find_device_config_entry_resolvable ids h :
  (find_device_config_entry config ids h).1
  = (find_device_config_entry config (resolvable ids) h).1.
Proof.
  induction ids as [|id rest IH]; [reflexivity|].
  rewrite (find_device_config_entry_cons _ _ _ _ _ _ _
             config_domain (async_get_entry_reads id h)).
  unfold resolvable in *.
  destruct (entries id) as [entry|] eqn:He.
  - rewrite filter_cons_True by (rewrite He; eauto).
    rewrite (find_device_config_entry_cons _ _ _ _ _ _ _
               config_domain (async_get_entry_reads id h)).
    rewrite He. destruct (str_ne (domain entry) declared); [|reflexivity].
    destruct (find_device_config_entry config rest h) as [[o h'] t].
    destruct (find_device_config_entry config (filter _ rest) h) as [[o' h''] t'].
    simpl in *. exact IH.
  - rewrite filter_cons_False by (rewrite He; apply is_Some_None).
    destruct (find_device_config_entry config rest h) as [[o h'] t].
    simpl in *. exact IH.
Qed.

(** C9.  An identifier the config-entry manager does not resolve is
    skipped by the scan: the scan of [ids] selects what the scan of the
    resolvable identifiers of [ids] selects, it raises nothing, and the
    entry it selects is the one some identifier of [ids] resolves to. *)
Theorem C9_unresolved_skipped (ids : list string) (h : HomeAssistant) :
  (find_device_config_entry config ids h).1
  = (find_device_config_entry config (resolvable ids) h).1
  ∧ (∃ selected, (find_device_config_entry config ids h).1.1 = Ok selected)
  ∧ (∀ entry,
       (find_device_config_entry config ids h).1.1 = Ok (Some entry) →
       ∃ id, id ∈ ids ∧ entries id = Some entry).
Proof.
  split; [apply find_device_config_entry_resolvable|].
  destruct (find_device_config_entry_first_match ids h)
    as (selected & t & Hrun & Hsel).
  rewrite Hrun; simpl. split; [now exists selected|].
  intros entry [= ->].
  destruct Hsel as (pre & id & post & -> & He & _).
  exists id. split; [|exact He].
  apply elem_of_app. right. apply elem_of_cons. now left.
Qed.

End ReadOnlyEntries.

(** ** Errors of the validation *)

(** The two conditions the module itself reports, for the dynamic part
    run from [h1]: the registry has no such device, or no config entry of
    the device that resolves has the declared domain. *)
Definition device_absent (config : ConfigType) (h1 : HomeAssistant) : Prop :=
  ∃ h2 t2, get_device config h1 = (Ok None, h2, t2).

Definition no_entry_matches (config : ConfigType) (h1 : HomeAssistant) : Prop :=
  ∃ device h2 t2 h3 t3,
    get_device config h1 = (Ok (Some device), h2, t2) ∧
    find_device_config_entry config (config_entries device) h2 = (Ok None, h3, t3).

Lemma validate_dynamic_invalid validator config h1 :
  device_absent config h1 ∨ no_entry_matches config h1 →
  (validate_dynamic validator config h1).1.1 = Err (InvalidDeviceAutomationConfig "").
Proof.
  unfold validate_dynamic.
  intros [(h2 & t2 & Hd)|(device & h2 & t2 & h3 & t3 & Hd & Hf)];
    rewrite (bind_Ok _ _ _ _ _ _ Hd); simpl; [reflexivity|].
  rewrite (bind_Ok _ _ _ _ _ _ Hf). reflexivity.
Qed.

Lemma validate_dynamic_raises validator config h1 e h t :
  validate_dynamic validator config h1 = (Err e, h, t) →
  (e = InvalidDeviceAutomationConfig "" ∧
   (device_absent config h1 ∨ no_entry_matches config h1))
  ∨ raised_by_collaborator t e
  ∨ (e = KeyError CONF_DEVICE_ID ∧ config !! CONF_DEVICE_ID = None)
  ∨ (e = KeyError CONF_DOMAIN ∧ config !! CONF_DOMAIN = None).
Proof.
  unfold validate_dynamic. unfold bind at 1.
  destruct (get_device config h1) as [[[device|e0] h2] t2] eqn:Hd.
  - destruct device as [device|]; simpl.
    + unfold bind at 1.
      destruct (find_device_config_entry config (config_entries device) h2)
        as [[[entry|e1] h3] t3] eqn:Hf.
      * destruct entry as [entry|]; simpl.
        -- unfold bind.
           destruct (perform (async_wait_component env entry) _ h3)
             as [[[ready|e2] h4] t4] eqn:Hw.
           ++ destruct ready; simpl.
              ** destruct (perform (validator config) _ h4)
                   as [[r5 h5] t5] eqn:Hr.
                 intros [= -> <- <-]. right; left.
                 do 3 apply raised_app_r. eapply perform_raises; [|exact Hr]. done.
              ** unfold ret. discriminate.
           ++ intros [= -> <- <-]. right; left. do 2 apply raised_app_r.
              eapply perform_raises; [|exact Hw]. done.
        -- unfold raise. intros [= <- <- <-]. left. split; [done|].
           right. now exists device, h2, t2, h3, t3.
      * intros [= -> <- <-].
        apply find_device_config_entry_raises in Hf as [Hc|Hk].
        -- right; left. now apply raised_app_r.
        -- now do 3 right.
    + unfold raise. intros [= <- <- <-]. left. split; [done|].
      left. now exists h2, t2.
  - intros [= -> <- <-]. apply get_device_raises in Hd as [Hc|Hk].
    + now right; left.
    + now right; right; left.
Qed.

Lemma translated_Invalid {A} (r : result A) msg cause :
  translated r = Err (Invalid msg cause) →
  r = Err (Invalid msg cause)
  ∨ ∃ m, r = Err (InvalidDeviceAutomationConfig m) ∧
         msg = str_or m "Invalid trigger configuration" ∧
         cause = Some (InvalidDeviceAutomationConfig m).
Proof.
  destruct r as [a|e]; [discriminate|].
  destruct e; simpl; intros [= <- <-]; eauto.
Qed.

Lemma translated_other {A} e :
  (∀ msg, e ≠ InvalidDeviceAutomationConfig msg) →
  translated (A := A) (Err e) = Err e.
Proof. intros Hne. destruct e; try reflexivity. now destruct (Hne msg). Qed.

(** [vol.Invalid] out of the dynamic path, in terms of the run of its
    blocks. *)
Lemma invalid_on_dynamic_path_run config platform validator h0 h1 t1 :
  get_platform config h0 = (Ok platform, h1, t1) →
  platform_async_validate_trigger_config platform = Some validator →
  (device_absent config h1 ∨ no_entry_matches config h1 →
     (async_validate_trigger_config config h0).1.1
     = Err (Invalid "Invalid trigger configuration"
                    (Some (InvalidDeviceAutomationConfig ""))))
  ∧ (∀ msg cause,
       (async_validate_trigger_config config h0).1.1 = Err (Invalid msg cause) →
       ((device_absent config h1 ∨ no_entry_matches config h1) ∧
        msg = "Invalid trigger configuration")
       ∨ raised_by_collaborator
           (async_validate_trigger_config config h0).2 (Invalid msg cause)
       ∨ ∃ m,
           raised_by_collaborator
             (async_validate_trigger_config config h0).2
             (InvalidDeviceAutomationConfig m) ∧
           msg = str_or m "Invalid trigger configuration" ∧
           cause = Some (InvalidDeviceAutomationConfig m)).
Proof.
  intros Hp Hv.
  pose proof (validate_body_dynamic _ _ _ _ _ _ Hp Hv) as Hb.
  destruct (validate_dynamic validator config h1) as [[r h] t] eqn:Hdyn.
  rewrite (async_validate_trigger_config_run _ _ _ _ _ Hb). simpl. split.
  - intros Habs. apply (validate_dynamic_invalid validator) in Habs.
    rewrite Hdyn in Habs. simpl in Habs. now subst r.
  - intros msg cause [->|(m & -> & -> & ->)]%translated_Invalid;
      apply validate_dynamic_raises in Hdyn
        as [[He Habs]|[Hc|[[He _]|[He _]]]]; try discriminate.
    + right; left. now apply raised_app_r.
    + injection He as ->. now left.
    + right; right. exists m. split; [now apply raised_app_r|done].
Qed.

(** ** Attachment *)

Lemma async_attach_trigger_run config action trigger_info d h0 :
  config !! CONF_DOMAIN = Some d →
  async_attach_trigger config action trigger_info h0 =
  match async_get_device_automation_platform env d TRIGGER h0 with
  | (Ok platform, h1) =>
      match platform_async_attach_trigger platform with
      | Some attach =>
          let '(r, h2) := attach config action trigger_info h1 in
          (r, h2, [EGetPlatform d TRIGGER (Ok platform);
                   EAttach config action trigger_info r])
      | None =>
          (Err (AttributeError "async_attach_trigger"), h1,
           [EGetPlatform d TRIGGER (Ok platform)])
      end
  | (Err e, h1) => (Err e, h1, [EGetPlatform d TRIGGER (Err e)])
  end.
Proof.
  intros Hd. unfold async_attach_trigger, bind.
  rewrite (get_platform_run _ _ _ Hd).
  destruct (async_get_device_automation_platform env d TRIGGER h0)
    as [[platform|e] h1]; [|reflexivity].
  destruct (platform_async_attach_trigger platform) as [attach|]; [|reflexivity].
  unfold perform. destruct (attach config action trigger_info h1) as [r h2].
  reflexivity.
Qed.

(** C6.  Every call of [attach], from whatever state, asks the resolver
    for the platform of the declared domain; the platform's attach
    capability then receives the configuration, the action and the
    trigger information as they were given, what it returns is returned
    as it is, and no other call is made. *)
Theorem C6_attach_delegates
    config action trigger_info d platform attach h0 h1 r h2 :
  config !! CONF_DOMAIN = Some d →
  async_get_device_automation_platform env d TRIGGER h0 = (Ok platform, h1) →
  platform_async_attach_trigger platform = Some attach →
  attach config action trigger_info h1 = (r, h2) →
  async_attach_trigger config action trigger_info h0
  = (r, h2, [EGetPlatform d TRIGGER (Ok platform);
             EAttach config action trigger_info r])
  ∧ (∀ h, ∃ rest,
       (async_attach_trigger config action trigger_info h).2
       = EGetPlatform d TRIGGER
           (async_get_device_automation_platform env d TRIGGER h).1 :: rest).
Proof.
  intros Hd Hp Ha Hr. split.
  - rewrite (async_attach_trigger_run _ _ _ _ _ Hd), Hp, Ha, Hr. reflexivity.
  - intros h. rewrite (async_attach_trigger_run _ _ _ _ _ Hd).
    destruct (async_get_device_automation_platform env d TRIGGER h)
      as [[platform'|e] h']; [|now eexists].
    destruct (platform_async_attach_trigger platform') as [attach'|];
      [|now eexists].
    destruct (attach' config action trigger_info h') as [r' h'']. now eexists.
Qed.

(** ** Errors of the collaborators *)

(** C7, as amended.  An error the resolver raises during [attach]
    reaches the caller as it is.  During [validate] it does so unless it
    is the internal invalid-config condition, which the [except] clause
    turns into [vol.Invalid] like any other such condition of the body. *)
Theorem C7_resolution_failure config d e h0 h1 :
  config !! CONF_DOMAIN = Some d →
  async_get_device_automation_platform env d TRIGGER h0 = (Err e, h1) →
  (∀ action trigger_info,
     async_attach_trigger config action trigger_info h0
     = (Err e, h1, [EGetPlatform d TRIGGER (Err e)]))
  ∧ async_validate_trigger_config config h0
    = (translated (Err e), h1, [EGetPlatform d TRIGGER (Err e)])
  ∧ ((∀ msg, e ≠ InvalidDeviceAutomationConfig msg) →
     translated (A := ConfigType) (Err e) = Err e)
  ∧ (∀ msg, e = InvalidDeviceAutomationConfig msg →
       translated (A := ConfigType) (Err e)
       = Err (Invalid (str_or msg "Invalid trigger configuration") (Some e))).
Proof.
  intros Hd Hp. repeat split.
  - intros action trigger_info.
    rewrite (async_attach_trigger_run _ _ _ _ _ Hd), Hp. reflexivity.
  - apply async_validate_trigger_config_run. unfold validate_body.
    apply bind_Err. rewrite (get_platform_run _ _ _ Hd), Hp. reflexivity.
  - apply translated_other.
  - intros msg ->. reflexivity.
Qed.

(** C8, as amended.  An error raised by the platform's attach capability
    reaches the caller of [attach] as it is.  An error raised by the
    platform's dynamic validator or by its static schema reaches the
    caller of [validate] as it is unless it is the internal
    invalid-config condition, which is turned into [vol.Invalid]. *)
Theorem C8_platform_failure config d platform e h0 h1 h2 :
  config !! CONF_DOMAIN = Some d →
  async_get_device_automation_platform env d TRIGGER h0 = (Ok platform, h1) →
  (∀ attach action trigger_info,
     platform_async_attach_trigger platform = Some attach →
     attach config action trigger_info h1 = (Err e, h2) →
     async_attach_trigger config action trigger_info h0
     = (Err e, h2, [EGetPlatform d TRIGGER (Ok platform);
                    EAttach config action trigger_info (Err e)]))
  ∧ (∀ schema,
       platform_async_validate_trigger_config platform = None →
       TRIGGER_SCHEMA platform = Some schema →
       schema config h1 = (Err e, h2) →
       async_validate_trigger_config config h0
       = (translated (Err e), h2,
          [EGetPlatform d TRIGGER (Ok platform); ESchema config (Err e)]))
  ∧ (∀ validator device entry h3 h4 h5 t2 t3,
       platform_async_validate_trigger_config platform = Some validator →
       get_device config h1 = (Ok (Some device), h3, t2) →
       find_device_config_entry config (config_entries device) h3
         = (Ok (Some entry), h4, t3) →
       async_wait_component env entry h4 = (Ok true, h5) →
       validator config h5 = (Err e, h2) →
       async_validate_trigger_config config h0
       = (translated (Err e), h2,
          [EGetPlatform d TRIGGER (Ok platform)] ++ t2 ++ t3 ++
          [EWaitComponent entry (Ok true); EValidate config (Err e)]))
  ∧ ((∀ msg, e ≠ InvalidDeviceAutomationConfig msg) →
     translated (A := ConfigType) (Err e) = Err e)
  ∧ (∀ msg, e = InvalidDeviceAutomationConfig msg →
       translated (A := ConfigType) (Err e)
       = Err (Invalid (str_or msg "Invalid trigger configuration") (Some e))).
Proof.
  intros Hd Hp.
  assert (Hg : get_platform config h0
               = (Ok platform, h1, [EGetPlatform d TRIGGER (Ok platform)])).
  { rewrite (get_platform_run _ _ _ Hd), Hp. reflexivity. }
  split; [|split; [|split; [|split]]].
  - intros attach action trigger_info Ha Hr.
    rewrite (async_attach_trigger_run _ _ _ _ _ Hd), Hp, Ha, Hr. reflexivity.
  - intros schema Hv Hs Hr.
    now apply (validate_static_run _ _ _ schema _ h1).
  - intros validator device entry h3 h4 h5 t2 t3 Hv Hdev Hf Hw Hr.
    now apply (validate_ready_run _ platform validator device entry _ h1 h3 h4 h5).
  - apply translated_other.
  - intros msg ->. reflexivity.
Qed.

(** ** Key lookups *)

Lemma validate_body_raises config h e h' t :
  validate_body config h = (Err e, h', t) →
  raised_by_collaborator t e
  ∨ (e = KeyError CONF_DOMAIN ∧ config !! CONF_DOMAIN = None)
  ∨ (e = KeyError CONF_DEVICE_ID ∧ config !! CONF_DEVICE_ID = None)
  ∨ e = AttributeError "TRIGGER_SCHEMA"
  ∨ e = InvalidDeviceAutomationConfig "".
Proof.
  unfold validate_body. unfold bind at 1.
  destruct (get_platform config h) as [[[platform|e0] h1] t1] eqn:Hp.
  - destruct (platform_async_validate_trigger_config platform) as [validator|].
    + destruct (validate_dynamic validator config h1) as [[r2 h2] t2] eqn:Hdyn.
      intros [= -> <- <-].
      apply validate_dynamic_raises in Hdyn as [[He _]|[Hc|[Hk|Hk]]].
      * now do 4 right.
      * left. now apply raised_app_r.
      * now right; right; left.
      * now right; left.
    + destruct (TRIGGER_SCHEMA platform) as [schema|].
      * destruct (perform (schema config) _ h1) as [[r2 h2] t2] eqn:Hs.
        intros [= -> <- <-]. left. apply raised_app_r.
        eapply perform_raises; [|exact Hs]. done.
      * unfold raise. intros [= <- <- <-]. now do 3 right; left.
  - intros [= -> <- <-]. apply get_platform_raises in Hp as [Hc|Hk].
    + now left.
    + now right; left.
Qed.

Lemma translated_KeyError {A} (r : result A) key :
  translated r = Err (KeyError key) → r = Err (KeyError key).
Proof. destruct r as [a|e]; [discriminate|]. now destruct e. Qed.

(** C10.  [validate] reads the [domain] key first and, on the dynamic
    path, the [device_id] key, both unguarded: a missing key ends the
    call with the [KeyError] of that key, not with [vol.Invalid].  When
    both keys are present the two reads succeed, and a [KeyError] out of
    [validate] can only be one a collaborator raised. *)
Theorem C10_unguarded_keys config h0 :
  (config !! CONF_DOMAIN = None →
     async_validate_trigger_config config h0 = (Err (KeyError CONF_DOMAIN), h0, []))
  ∧ (∀ platform validator registry h1 h2 t1,
       get_platform config h0 = (Ok platform, h1, t1) →
       platform_async_validate_trigger_config platform = Some validator →
       dr_async_get env h1 = (Ok registry, h2) →
       config !! CONF_DEVICE_ID = None →
       async_validate_trigger_config config h0
       = (Err (KeyError CONF_DEVICE_ID), h2, t1 ++ [EDrAsyncGet (Ok registry)]))
  ∧ (∀ d i,
       config !! CONF_DOMAIN = Some d →
       config !! CONF_DEVICE_ID = Some i →
       (∀ h, getitem config CONF_DOMAIN h = (Ok d, h, []) ∧
             getitem config CONF_DEVICE_ID h = (Ok i, h, []))
       ∧ (∀ key h t,
            async_validate_trigger_config config h0 = (Err (KeyError key), h, t) →
            raised_by_collaborator t (KeyError key))).
Proof.
  split; [|split].
  - intros Hd.
    apply (async_validate_trigger_config_run _ _ (Err (KeyError CONF_DOMAIN))).
    unfold validate_body, get_platform, getitem, bind. rewrite Hd. reflexivity.
  - intros platform validator registry h1 h2 t1 Hp Hv Hr Hi.
    apply (async_validate_trigger_config_run _ _ (Err (KeyError CONF_DEVICE_ID))).
    rewrite (validate_body_dynamic _ _ _ _ _ _ Hp Hv).
    unfold validate_dynamic, get_device, getitem, bind, perform.
    rewrite Hr, Hi. reflexivity.
  - intros d i Hd Hi. split.
    + intros h. unfold getitem. rewrite Hd, Hi. done.
    + intros key h t Hrun.
      destruct (validate_body config h0) as [[r h'] t'] eqn:Hb.
      rewrite (async_validate_trigger_config_run _ _ _ _ _ Hb) in Hrun.
      injection Hrun as Hr -> ->. apply translated_KeyError in Hr as ->.
      apply validate_body_raises in Hb
        as [Hc|[[_ Hk]|[[_ Hk]|[He|He]]]]; try done; congruence.
Qed.

(** ** The shape of a run

    The calls a run can make and the outcome that goes with them, apart
    from the state: first for the scan of lines 73-80, then for the dynamic
    part, then for the whole body of the [try]. *)

Inductive scan_run (config : ConfigType) :
    list string → result (option ConfigEntry) → list event → Prop :=
| scan_done :
    scan_run config [] (Ok None) []
| scan_lookup_raises id rest e :
    scan_run config (id :: rest) (Err e) [EGetEntry id (Err e)]
| scan_unresolved id rest r t :
    scan_run config rest r t →
    scan_run config (id :: rest) r (EGetEntry id (Ok None) :: t)
| scan_other_domain id rest entry d r t :
    config !! CONF_DOMAIN = Some d →
    str_ne (domain entry) d = true →
    scan_run config rest r t →
    scan_run config (id :: rest) r (EGetEntry id (Ok (Some entry)) :: t)
| scan_match id rest entry d :
    config !! CONF_DOMAIN = Some d →
    str_ne (domain entry) d = false →
    scan_run config (id :: rest) (Ok (Some entry))
             [EGetEntry id (Ok (Some entry))]
| scan_no_domain id rest entry :
    config !! CONF_DOMAIN = None →
    scan_run config (id :: rest) (Err (KeyError CONF_DOMAIN))
             [EGetEntry id (Ok (Some entry))].

Inductive dynamic_run (config : ConfigType) :
    result ConfigType → list event → Prop :=
| dyn_registry_raises e :
    dynamic_run config (Err e) [EDrAsyncGet (Err e)]
| dyn_no_device_id registry :
    config !! CONF_DEVICE_ID = None →
    dynamic_run config (Err (KeyError CONF_DEVICE_ID)) [EDrAsyncGet (Ok registry)]
| dyn_lookup_raises registry i e :
    config !! CONF_DEVICE_ID = Some i →
    dynamic_run config (Err e)
                [EDrAsyncGet (Ok registry); ERegistryAsyncGet i (Err e)]
| dyn_no_device registry i :
    config !! CONF_DEVICE_ID = Some i →
    dynamic_run config (Err (InvalidDeviceAutomationConfig ""))
                [EDrAsyncGet (Ok registry); ERegistryAsyncGet i (Ok None)]
| dyn_scan_raises registry i device e ts :
    config !! CONF_DEVICE_ID = Some i →
    scan_run config (config_entries device) (Err e) ts →
    dynamic_run config (Err e)
                ([EDrAsyncGet (Ok registry);
                  ERegistryAsyncGet i (Ok (Some device))] ++ ts)
| dyn_no_entry registry i device ts :
    config !! CONF_DEVICE_ID = Some i →
    scan_run config (config_entries device) (Ok None) ts →
    dynamic_run config (Err (InvalidDeviceAutomationConfig ""))
                ([EDrAsyncGet (Ok registry);
                  ERegistryAsyncGet i (Ok (Some device))] ++ ts)
| dyn_wait_raises registry i device entry e ts :
    config !! CONF_DEVICE_ID = Some i →
    scan_run config (config_entries device) (Ok (Some entry)) ts →
    dynamic_run config (Err e)
                ([EDrAsyncGet (Ok registry);
                  ERegistryAsyncGet i (Ok (Some device))] ++ ts ++
                 [EWaitComponent entry (Err e)])
| dyn_never_ready registry i device entry ts :
    config !! CONF_DEVICE_ID = Some i →
    scan_run config (config_entries device) (Ok (Some entry)) ts →
    dynamic_run config (Ok config)
                ([EDrAsyncGet (Ok registry);
                  ERegistryAsyncGet i (Ok (Some device))] ++ ts ++
                 [EWaitComponent entry (Ok false)])
| dyn_validated registry i device entry r ts :
    config !! CONF_DEVICE_ID = Some i →
    scan_run config (config_entries device) (Ok (Some entry)) ts →
    dynamic_run config r
                ([EDrAsyncGet (Ok registry);
                  ERegistryAsyncGet i (Ok (Some device))] ++ ts ++
                 [EWaitComponent entry (Ok true); EValidate config r]).

Inductive body_run (config : ConfigType) :
    result ConfigType → list event → Prop :=
| body_no_domain :
    config !! CONF_DOMAIN = None →
    body_run config (Err (KeyError CONF_DOMAIN)) []
| body_resolver_raises d e :
    config !! CONF_DOMAIN = Some d →
    body_run config (Err e) [EGetPlatform d TRIGGER (Err e)]
| body_no_member d platform :
    config !! CONF_DOMAIN = Some d →
    platform_async_validate_trigger_config platform = None →
    TRIGGER_SCHEMA platform = None →
    body_run config (Err (AttributeError "TRIGGER_SCHEMA"))
             [EGetPlatform d TRIGGER (Ok platform)]
| body_static d platform schema r :
    config !! CONF_DOMAIN = Some d →
    platform_async_validate_trigger_config platform = None →
    TRIGGER_SCHEMA platform = Some schema →
    body_run config r [EGetPlatform d TRIGGER (Ok platform); ESchema config r]
| body_dynamic d platform validator r t :
    config !! CONF_DOMAIN = Some d →
    platform_async_validate_trigger_config platform = Some validator →
    dynamic_run config r t →
    body_run config r (EGetPlatform d TRIGGER (Ok platform) :: t).

Lemma find_device_config_entry_scan_run config ids h r h' t :
  find_device_config_entry config ids h = (r, h', t) → scan_run config ids r t.
Proof.
  revert h r h' t. induction ids as [|id rest IH]; intros h r h' t; simpl.
  - unfold ret. intros [= <- <- <-]. constructor.
  - unfold bind at 1.
    destruct (perform _ _ h) as [[[entry|e0] h0] t0] eqn:Hp;
      apply perform_run in Hp as [_ ->].
    + destruct entry as [entry|].
      * unfold bind at 1.
        destruct (getitem config CONF_DOMAIN h0) as [[[d|e1] h1] t1] eqn:Hg;
          apply getitem_run in Hg as (-> & -> & Hg);
          destruct (config !! CONF_DOMAIN) as [d'|] eqn:Hd; try discriminate.
        -- injection Hg as <-.
           destruct (str_ne (domain entry) d) eqn:Hne.
           ++ destruct (find_device_config_entry config rest h0)
                as [[r2 h2] t2] eqn:Hf.
              intros [= <- <- <-]. simpl.
              eapply scan_other_domain; eauto.
           ++ unfold ret. intros [= <- <- <-]. eapply scan_match; eauto.
        -- injection Hg as ->. intros [= <- <- <-]. now apply scan_no_domain.
      * destruct (find_device_config_entry config rest h0)
          as [[r2 h2] t2] eqn:Hf.
        intros [= <- <- <-]. apply scan_unresolved. eauto.
    + intros [= <- <- <-]. apply scan_lookup_raises.
Qed.

Lemma validate_dynamic_run validator config h r h' t :
  validate_dynamic validator config h = (r, h', t) → dynamic_run config r t.
Proof.
  unfold validate_dynamic, get_device. unfold bind at 1 2.
  destruct (perform (dr_async_get env) EDrAsyncGet h) as [[[registry|e0] h0] t0] eqn:Hr;
    apply perform_run in Hr as [_ ->];
    [|intros [= <- <- <-]; apply dyn_registry_raises].
  unfold bind at 1.
  destruct (getitem config CONF_DEVICE_ID h0) as [[[i|e1] h1] t1] eqn:Hg;
    apply getitem_run in Hg as (-> & -> & Hg);
    destruct (config !! CONF_DEVICE_ID) as [i'|] eqn:Hi; try discriminate.
  - injection Hg as <-.
    destruct (perform (async_get registry i) _ h0) as [[[device|e2] h2] t2] eqn:Hl;
      apply perform_run in Hl as [_ ->]; simpl;
      [|intros [= <- <- <-]; now apply dyn_lookup_raises].
    destruct device as [device|];
      [|unfold raise; intros [= <- <- <-]; now apply dyn_no_device].
    unfold bind at 1.
    destruct (find_device_config_entry config (config_entries device) h2)
      as [[[entry|e3] h3] ts] eqn:Hf;
      apply find_device_config_entry_scan_run in Hf;
      [|intros [= <- <- <-]; now apply dyn_scan_raises].
    destruct entry as [entry|];
      [|unfold raise; intros [= <- <- <-]; rewrite app_nil_r;
        now apply dyn_no_entry].
    unfold bind.
    destruct (perform (async_wait_component env entry) _ h3)
      as [[[ready|e4] h4] t4] eqn:Hw;
      apply perform_run in Hw as [_ ->];
      [|intros [= <- <- <-]; now apply dyn_wait_raises].
    destruct ready; simpl.
    + destruct (perform (validator config) _ h4) as [[r5 h5] t5] eqn:Hv.
      apply perform_run in Hv as [_ ->].
      intros [= <- <- <-]. now apply dyn_validated.
    + unfold ret. intros [= <- <- <-]. now apply dyn_never_ready.
  - injection Hg as ->. simpl. intros [= <- <- <-]. now apply dyn_no_device_id.
Qed.

Lemma validate_body_run config h r h' t :
  validate_body config h = (r, h', t) → body_run config r t.
Proof.
  unfold validate_body, get_platform. unfold bind at 1 2.
  destruct (getitem config CONF_DOMAIN h) as [[[d|e0] h0] t0] eqn:Hg;
    apply getitem_run in Hg as (-> & -> & Hg);
    destruct (config !! CONF_DOMAIN) as [d'|] eqn:Hd; try discriminate.
  - injection Hg as <-.
    destruct (perform _ _ h) as [[[platform|e1] h1] t1] eqn:Hp;
      apply perform_run in Hp as [_ ->]; simpl;
      [|intros [= <- <- <-]; now apply body_resolver_raises].
    destruct (platform_async_validate_trigger_config platform)
      as [validator|] eqn:Hv.
    + destruct (validate_dynamic validator config h1) as [[r2 h2] t2] eqn:Hdyn.
      apply validate_dynamic_run in Hdyn.
      intros [= <- <- <-]. eapply body_dynamic; eauto.
    + destruct (TRIGGER_SCHEMA platform) as [schema|] eqn:Hs.
      * destruct (perform (schema config) _ h1) as [[r2 h2] t2] eqn:Hr.
        apply perform_run in Hr as [_ ->].
        intros [= <- <- <-]. eapply body_static; eauto.
      * unfold raise. intros [= <- <- <-]. now apply body_no_member.
  - injection Hg as ->. intros [= <- <- <-]. now apply body_no_domain.
Qed.

(** The run of [validate] is a run of the body whose outcome went through
    the [except] clause. *)
Lemma async_validate_trigger_config_body_run config h :
  ∃ r,
    body_run config r (async_validate_trigger_config config h).2 ∧
    (async_validate_trigger_config config h).1.1 = translated r.
Proof.
  destruct (validate_body config h) as [[r h'] t] eqn:Hb.
  exists r. rewrite (async_validate_trigger_config_run _ _ _ _ _ Hb).
  split; [|reflexivity]. now apply (validate_body_run _ h _ h').
Qed.

(** ** What a run never does *)

(** The internal condition as an outcome. *)
Definition is_internal_condition {A} (r : result A) : bool :=
  match r with
  | Err (InvalidDeviceAutomationConfig _) => true
  | _ => false
  end.

(** X1.  Whatever the collaborators do, [validate] never ends with the
    internal invalid-config condition: the [except] clause leaves no such
    outcome. *)
Theorem X1_internal_condition_never_escapes config h :
  is_internal_condition (async_validate_trigger_config config h).1.1 = false.
Proof.
  unfold async_validate_trigger_config. rewrite try_except_translated. simpl.
  destruct (validate_body config h) as [[[c|e] h'] t]; simpl; [reflexivity|].
  now destruct e.
Qed.

(** A run is fail-fast when a call that raised is the last call made, and
    its exception the outcome; [raised] is the exception the run ended
    with, if any. *)
Definition fail_fast (raised : option exn) (t : list event) : Prop :=
  ∀ t1 ev t2 e, t = t1 ++ ev :: t2 → event_exn ev = Some e →
                t2 = [] ∧ raised = Some e.

Definition quiet (t : list event) : Prop :=
  Forall (λ ev, event_exn ev = None) t.

Lemma fail_fast_nil raised : fail_fast raised [].
Proof. intros [|ev1 t1] ev t2 e' Ht; discriminate. Qed.

Lemma fail_fast_last raised ev :
  (∀ e, event_exn ev = Some e → raised = Some e) → fail_fast raised [ev].
Proof.
  intros Hev [|ev1 t1] ev' t2 e Ht He.
  - injection Ht as <- <-. split; [reflexivity|]. now apply Hev.
  - injection Ht as _ Ht. now destruct t1.
Qed.

Lemma fail_fast_cons raised ev t :
  event_exn ev = None → fail_fast raised t → fail_fast raised (ev :: t).
Proof.
  intros Hq Hf [|ev1 t1] ev' t2 e Ht He.
  - injection Ht as <- <-. congruence.
  - injection Ht as _ ->. now apply (Hf t1 ev' t2).
Qed.

Lemma fail_fast_app raised t t' :
  quiet t → fail_fast raised t' → fail_fast raised (t ++ t').
Proof.
  induction 1 as [|ev t Hev _ IH]; intros Hf; [exact Hf|].
  simpl. apply fail_fast_cons; auto.
Qed.

Lemma fail_fast_None_quiet t : fail_fast None t → quiet t.
Proof.
  intros Hf. apply Forall_forall. intros ev Hin.
  apply list_elem_of_split in Hin as (t1 & t2 & ->).
  destruct (event_exn ev) as [e|] eqn:He; [|reflexivity].
  now destruct (Hf t1 ev t2 e eq_refl He).
Qed.

Lemma scan_run_fail_fast config ids r t :
  scan_run config ids r t → fail_fast (outcome_exn r) t.
Proof.
  induction 1; simpl.
  - apply fail_fast_nil.
  - now apply fail_fast_last.
  - now apply fail_fast_cons.
  - now apply fail_fast_cons.
  - apply fail_fast_last. discriminate.
  - apply fail_fast_last. discriminate.
Qed.

Lemma scan_run_quiet config ids selected t :
  scan_run config ids (Ok selected) t → quiet t.
Proof. intros Hs. now apply fail_fast_None_quiet, (scan_run_fail_fast _ _ _ _ Hs). Qed.

Lemma dynamic_run_fail_fast config r t :
  dynamic_run config r t → fail_fast (outcome_exn r) t.
Proof.
  destruct 1; simpl.
  - now apply fail_fast_last.
  - apply fail_fast_last. discriminate.
  - apply fail_fast_cons; [reflexivity|]. now apply fail_fast_last.
  - apply fail_fast_cons; [reflexivity|]. apply fail_fast_last. discriminate.
  - do 2 (apply fail_fast_cons; [reflexivity|]).
    now apply (scan_run_fail_fast _ _ _ _ H0).
  - do 2 (apply fail_fast_cons; [reflexivity|]).
    rewrite <- (app_nil_r ts).
    apply fail_fast_app; [eapply scan_run_quiet; eauto|apply fail_fast_nil].
  - do 2 (apply fail_fast_cons; [reflexivity|]).
    apply fail_fast_app; [eapply scan_run_quiet; eauto|].
    now apply fail_fast_last.
  - do 2 (apply fail_fast_cons; [reflexivity|]).
    apply fail_fast_app; [eapply scan_run_quiet; eauto|].
    apply fail_fast_last. discriminate.
  - do 2 (apply fail_fast_cons; [reflexivity|]).
    apply fail_fast_app; [eapply scan_run_quiet; eauto|].
    apply fail_fast_cons; [reflexivity|]. now apply fail_fast_last.
Qed.

Lemma body_run_fail_fast config r t :
  body_run config r t → fail_fast (outcome_exn r) t.
Proof.
  destruct 1; simpl.
  - apply fail_fast_nil.
  - now apply fail_fast_last.
  - apply fail_fast_last. discriminate.
  - apply fail_fast_cons; [reflexivity|]. now apply fail_fast_last.
  - apply fail_fast_cons; [reflexivity|]. now apply (dynamic_run_fail_fast config).
Qed.

(** X2.  [validate] never goes on after a failure and never retries: a
    call to a collaborator that raises is the last call of the run, and the
    exception it raised is the outcome, as the [except] clause leaves
    it. *)
Theorem X2_validate_fails_fast config h t1 ev t2 e :
  (async_validate_trigger_config config h).2 = t1 ++ ev :: t2 →
  event_exn ev = Some e →
  t2 = [] ∧ (async_validate_trigger_config config h).1.1 = translated (Err e).
Proof.
  intros Ht He.
  destruct (async_validate_trigger_config_body_run config h) as (r & Hrun & ->).
  apply body_run_fail_fast in Hrun.
  destruct (Hrun t1 ev t2 e Ht He) as [-> Hr].
  destruct r as [c|e']; [discriminate|]. injection Hr as ->. done.
Qed.

(** ** Which calls a run makes *)

Ltac elem_cases H :=
  simpl in H;
  repeat first
    [ apply elem_of_nil in H; destruct H
    | apply elem_of_cons in H as [H|H]
    | apply elem_of_app in H as [H|H] ].

Lemma scan_run_events config ids r t ev :
  scan_run config ids r t → ev ∈ t →
  ∃ id r', ev = EGetEntry id r' ∧ id ∈ ids.
Proof.
  induction 1 as [|id rest e|id rest r t _ IH|id rest entry d r t _ _ _ IH
                  |id rest entry d _ _|id rest entry _]; intros Hin.
  - elem_cases Hin.
  - elem_cases Hin. subst. exists id, (Err e). split; [done|]. apply elem_of_cons; auto.
  - apply elem_of_cons in Hin as [->|Hin].
    + exists id, (Ok None). split; [done|]. apply elem_of_cons; auto.
    + destruct (IH Hin) as (id' & r' & -> & Hid).
      exists id', r'. split; [done|]. apply elem_of_cons; auto.
  - apply elem_of_cons in Hin as [->|Hin].
    + exists id, (Ok (Some entry)). split; [done|]. apply elem_of_cons; auto.
    + destruct (IH Hin) as (id' & r' & -> & Hid).
      exists id', r'. split; [done|]. apply elem_of_cons; auto.
  - elem_cases Hin. subst. exists id, (Ok (Some entry)).
    split; [done|]. apply elem_of_cons; auto.
  - elem_cases Hin. subst. exists id, (Ok (Some entry)).
    split; [done|]. apply elem_of_cons; auto.
Qed.

Lemma scan_run_selected config ids entry t :
  scan_run config ids (Ok (Some entry)) t →
  ∃ id, last t = Some (EGetEntry id (Ok (Some entry))) ∧
        config !! CONF_DOMAIN = Some (VStr (domain entry)).
Proof.
  remember (Ok (Some entry)) as r eqn:Hr. intros Hs. revert Hr.
  induction Hs as [|id rest e|id rest r t Hs IH|id rest entry' d r t Hd Hne Hs IH
                   |id rest entry' d Hd Hne|id rest entry' Hd]; intros Hr;
    try discriminate.
  - destruct (IH Hr) as (id' & Hl & Hm). exists id'. split; [|done].
    destruct t; [discriminate|]. now rewrite last_cons_cons.
  - destruct (IH Hr) as (id' & Hl & Hm). exists id'. split; [|done].
    destruct t; [discriminate|]. now rewrite last_cons_cons.
  - injection Hr as ->. exists id. split; [reflexivity|].
    apply str_ne_false in Hne. now rewrite Hd, Hne.
Qed.

Lemma scan_run_length config ids r t :
  scan_run config ids r t → (List.length t ≤ List.length ids)%nat.
Proof. induction 1; simpl; lia. Qed.

(** What the outcome [r] and the rest of the trace [t] of a run of the
    body say about a call [ev] made in it. *)
Definition licensed (config : ConfigType) (r : result ConfigType)
    (t : list event) (ev : event) : Prop :=
  match ev with
  | EGetPlatform d ty _ =>
      ty = TRIGGER ∧ config !! CONF_DOMAIN = Some d
  | ESchema c r' =>
      c = config ∧ r' = r ∧
      ∃ d platform, EGetPlatform d TRIGGER (Ok platform) ∈ t ∧
                    platform_async_validate_trigger_config platform = None
  | EDrAsyncGet _ =>
      ∃ d platform, EGetPlatform d TRIGGER (Ok platform) ∈ t ∧
                    is_Some (platform_async_validate_trigger_config platform)
  | ERegistryAsyncGet i _ =>
      config !! CONF_DEVICE_ID = Some i
  | EGetEntry id _ =>
      ∃ i device, ERegistryAsyncGet i (Ok (Some device)) ∈ t ∧
                  id ∈ config_entries device
  | EWaitComponent entry _ =>
      config !! CONF_DOMAIN = Some (VStr (domain entry)) ∧
      ∃ id, EGetEntry id (Ok (Some entry)) ∈ t
  | EValidate c r' =>
      c = config ∧ r' = r ∧ ∃ entry, EWaitComponent entry (Ok true) ∈ t
  | EAttach _ _ _ _ => False
  end.

Lemma licensed_cons config r t ev0 ev :
  licensed config r t ev → licensed config r (ev0 :: t) ev.
Proof.
  destruct ev as [d ty r0|c r0|r0|i r0|id r0|entry r0|c r0|c a ti r0];
    simpl; try done.
  - intros (-> & -> & d & platform & Hin & Hv). repeat split.
    exists d, platform. split; [|done]. apply elem_of_cons; auto.
  - intros (d & platform & Hin & Hv).
    exists d, platform. split; [|done]. apply elem_of_cons; auto.
  - intros (i & device & Hin & Hid). exists i, device.
    split; [|done]. apply elem_of_cons; auto.
  - intros (Hm & id & Hin). split; [done|]. exists id. apply elem_of_cons; auto.
  - intros (-> & -> & entry & Hin). repeat split. exists entry.
    apply elem_of_cons; auto.
Qed.

(** The same for a call made in the dynamic part, which holds neither a
    resolution nor a schema call. *)
Definition dynamic_licensed (config : ConfigType) (r : result ConfigType)
    (t : list event) (ev : event) : Prop :=
  match ev with
  | EGetPlatform _ _ _ | ESchema _ _ => False
  | EDrAsyncGet _ => True
  | _ => licensed config r t ev
  end.

Lemma dynamic_run_licensed config r t ev :
  dynamic_run config r t → ev ∈ t → dynamic_licensed config r t ev.
Proof.
  assert (Hscan : ∀ i device rs ts (t' : list event) ev',
            scan_run config (config_entries device) rs ts →
            ERegistryAsyncGet i (Ok (Some device)) ∈ t' →
            ev' ∈ ts → dynamic_licensed config r t' ev').
  { intros i device rs ts t' ev' Hs Hreg Hin.
    destruct (scan_run_events _ _ _ _ _ Hs Hin) as (id & r' & -> & Hid).
    simpl. now exists i, device. }
  destruct 1 as [e|registry Hi|registry i e Hi|registry i Hi
                 |registry i device e ts Hi Hs|registry i device ts Hi Hs
                 |registry i device entry e ts Hi Hs
                 |registry i device entry ts Hi Hs
                 |registry i device entry r ts Hi Hs];
    intros Hin; elem_cases Hin; subst; simpl; try done;
    try (eapply Hscan; [exact Hs| |exact Hin];
         apply elem_of_cons; right; apply elem_of_cons; now left).
  all: destruct (scan_run_selected _ _ _ _ Hs) as (id & Hl & Hm);
    apply last_Some_elem_of in Hl.
  - split; [done|]. exists id. do 2 (apply elem_of_cons; right).
    apply elem_of_app; now left.
  - split; [done|]. exists id. do 2 (apply elem_of_cons; right).
    apply elem_of_app; now left.
  - split; [done|]. exists id. do 2 (apply elem_of_cons; right).
    apply elem_of_app; now left.
  - repeat split. exists entry. do 2 (apply elem_of_cons; right).
    apply elem_of_app; right. apply elem_of_cons; now left.
Qed.

Lemma body_run_licensed config r t ev :
  body_run config r t → ev ∈ t → licensed config r t ev.
Proof.
  destruct 1 as [Hd|d e Hd|d platform Hd Hv Hs|d platform schema r Hd Hv Hs
                 |d platform validator r t Hd Hv Hdyn];
    intros Hin.
  - elem_cases Hin.
  - elem_cases Hin. subst. done.
  - elem_cases Hin. subst. done.
  - elem_cases Hin; subst; simpl; [done|].
    repeat split. exists d, platform. split; [|done]. apply elem_of_cons; now left.
  - apply elem_of_cons in Hin as [->|Hin]; [done|].
    pose proof (dynamic_run_licensed _ _ _ _ Hdyn Hin) as Hl.
    destruct ev; simpl in Hl; try done;
      try (apply licensed_cons; exact Hl).
    simpl. exists d, platform. split; [apply elem_of_cons; now left|eauto].
Qed.

(** Every call of a run of [validate] is licensed by the run. *)
Lemma async_validate_trigger_config_licensed config h ev :
  ev ∈ (async_validate_trigger_config config h).2 →
  ∃ r, (async_validate_trigger_config config h).1.1 = translated r ∧
       licensed config r (async_validate_trigger_config config h).2 ev.
Proof.
  intros Hin.
  destruct (async_validate_trigger_config_body_run config h) as (r & Hrun & Hr).
  exists r. split; [exact Hr|]. now apply body_run_licensed.
Qed.


(** X4.  [validate] waits only for a config entry of the device the
    configuration names: the entry waited for has the declared domain and
    was returned by the config-entry manager for an identifier listed on
    the device that the registry returned for [config[device_id]]. *)
Theorem X4_wait_only_for_matching_entry config h entry r :
  EWaitComponent entry r ∈ (async_validate_trigger_config config h).2 →
  config !! CONF_DOMAIN = Some (VStr (domain entry)) ∧
  ∃ id i device,
    EGetEntry id (Ok (Some entry)) ∈ (async_validate_trigger_config config h).2 ∧
    id ∈ config_entries device ∧
    ERegistryAsyncGet i (Ok (Some device))
      ∈ (async_validate_trigger_config config h).2 ∧
    config !! CONF_DEVICE_ID = Some i.
Proof.
  intros Hin.
  destruct (async_validate_trigger_config_body_run config h) as (r0 & Hrun & Hr).
  pose proof (body_run_licensed _ _ _ _ Hrun Hin) as (Hm & id & Hid).
  pose proof (body_run_licensed _ _ _ _ Hrun Hid) as (i & device & Hreg & Hids).
  pose proof (body_run_licensed _ _ _ _ Hrun Hreg) as Hi.
  split; [exact Hm|]. now exists id, i, device.
Qed.

(** X5.  [validate] asks its collaborators only about what the
    configuration names: the resolver for the trigger platform of
    [config[domain]], the registry for [config[device_id]], and the
    config-entry manager for identifiers listed on the device found; it
    never attaches a trigger. *)
Theorem X5_validate_asks_what_config_names config h :
  (∀ d ty r, EGetPlatform d ty r ∈ (async_validate_trigger_config config h).2 →
             ty = TRIGGER ∧ config !! CONF_DOMAIN = Some d)
  ∧ (∀ i r, ERegistryAsyncGet i r ∈ (async_validate_trigger_config config h).2 →
            config !! CONF_DEVICE_ID = Some i)
  ∧ (∀ id r, EGetEntry id r ∈ (async_validate_trigger_config config h).2 →
             ∃ i device,
               ERegistryAsyncGet i (Ok (Some device))
                 ∈ (async_validate_trigger_config config h).2 ∧
               id ∈ config_entries device)
  ∧ Forall (λ ev, match ev with EAttach _ _ _ _ => False | _ => True end)
           (async_validate_trigger_config config h).2.
Proof.
  destruct (async_validate_trigger_config_body_run config h) as (r0 & Hrun & Hr).
  repeat split.
  - now destruct (body_run_licensed _ _ _ _ Hrun H).
  - now destruct (body_run_licensed _ _ _ _ Hrun H).
  - intros i r Hin. exact (body_run_licensed _ _ _ _ Hrun Hin).
  - intros id r Hin. exact (body_run_licensed _ _ _ _ Hrun Hin).
  - apply Forall_forall. intros ev Hin.
    pose proof (body_run_licensed _ _ _ _ Hrun Hin) as Hl. now destruct ev.
Qed.

Lemma dynamic_run_no_resolution config r t d ty rp :
  dynamic_run config r t → EGetPlatform d ty rp ∉ t.
Proof. intros Hdyn Hin. exact (dynamic_run_licensed _ _ _ _ Hdyn Hin). Qed.

Lemma dynamic_run_no_schema config r t c r' :
  dynamic_run config r t → ESchema c r' ∉ t.
Proof. intros Hdyn Hin. exact (dynamic_run_licensed _ _ _ _ Hdyn Hin). Qed.

(** X6.  The dynamic validator takes precedence over the static schema:
    when the platform the resolver returned has
    [async_validate_trigger_config], its [TRIGGER_SCHEMA] is never called,
    whether it has one or not; when it has none, no call goes to the
    device registry, the config-entry manager or a validator. *)
Theorem X6_validator_precedes_schema config h d ty platform :
  EGetPlatform d ty (Ok platform) ∈ (async_validate_trigger_config config h).2 →
  (is_Some (platform_async_validate_trigger_config platform) →
   Forall (λ ev, match ev with ESchema _ _ => False | _ => True end)
          (async_validate_trigger_config config h).2)
  ∧ (platform_async_validate_trigger_config platform = None →
     Forall (λ ev, touches_registries ev = false ∧
                   match ev with EValidate _ _ => False | _ => True end)
            (async_validate_trigger_config config h).2).
Proof.
  intros Hin.
  destruct (async_validate_trigger_config_body_run config h) as (r0 & Hrun & _).
  destruct Hrun as [Hd|d0 e Hd|d0 platform0 Hd Hv Hs
                    |d0 platform0 schema r Hd Hv Hs
                    |d0 platform0 validator r t Hd Hv Hdyn].
  - elem_cases Hin.
  - elem_cases Hin. discriminate.
  - elem_cases Hin. injection Hin as -> -> ->. rewrite Hv. split.
    + now intros [v Hsome].
    + intros _. now repeat constructor.
  - elem_cases Hin; [|discriminate]. injection Hin as -> -> ->. rewrite Hv. split.
    + now intros [v Hsome].
    + intros _. now repeat constructor.
  - apply elem_of_cons in Hin as [Hin|Hin];
      [|now destruct (dynamic_run_no_resolution _ _ _ _ _ _ Hdyn Hin)].
    injection Hin as -> -> ->. rewrite Hv. split; [|discriminate].
    intros _. constructor; [done|]. apply Forall_forall. intros ev Hev.
    destruct ev; try done.
    now destruct (dynamic_run_no_schema _ _ _ _ _ Hdyn Hev).
Qed.

Lemma translated_Ok {A} (r : result A) a : translated r = Ok a → r = Ok a.
Proof. destruct r as [a'|e]; [done|]. now destruct e. Qed.

(** X7.  A configuration [validate] returns is never made up by the
    module: it is the configuration it was given, after a wait that
    returned false, or it is what the last call, the platform's schema or
    validator applied to the configuration it was given, returned. *)
Theorem X7_returned_config_provenance config h validated :
  (async_validate_trigger_config config h).1.1 = Ok validated →
  (validated = config ∧
   ∃ entry, last (async_validate_trigger_config config h).2
            = Some (EWaitComponent entry (Ok false)))
  ∨ last (async_validate_trigger_config config h).2
    = Some (ESchema config (Ok validated))
  ∨ last (async_validate_trigger_config config h).2
    = Some (EValidate config (Ok validated)).
Proof.
  intros Hok.
  destruct (async_validate_trigger_config_body_run config h) as (r0 & Hrun & Hr).
  rewrite Hr in Hok. apply translated_Ok in Hok as ->.
  inversion Hrun as [| | |d platform schema Hd Hv Hs Heq Ht
                     |d platform validator r t Hd Hv Hdyn Heq Ht]; subst.
  - right; left. reflexivity.
  - inversion Hdyn as [| | | | | | |registry i device entry ts Hi Hs Heq Ht'
                       |registry i device entry r ts Hi Hs Heq Ht']; subst.
    + left. split; [reflexivity|]. exists entry.
      simpl. rewrite !app_comm_cons. apply last_snoc.
    + right; right. simpl. rewrite !app_comm_cons, last_app_cons. reflexivity.
Qed.

(** ** The scan, whatever the config-entry manager does *)

Lemma scan_run_prefix config ids r t :
  scan_run config ids r t →
  ∃ k, (k ≤ List.length ids)%nat ∧
       Forall2 (λ id ev, ∃ r', ev = EGetEntry id r') (take k ids) t ∧
       (r = Ok None → k = List.length ids).
Proof.
  induction 1 as [|id rest e|id rest r t _ IH|id rest entry d r t _ _ _ IH
                  |id rest entry d _ _|id rest entry _].
  - exists 0%nat. simpl. repeat split; [lia|constructor].
  - exists 1%nat. simpl. repeat split; [lia| |discriminate].
    rewrite take_0. repeat constructor. now exists (Err e).
  - destruct IH as (k & Hk & Hall & Hnone). exists (S k). simpl.
    repeat split; [lia| |intros Hr; f_equal; auto].
    constructor; [now exists (Ok None)|exact Hall].
  - destruct IH as (k & Hk & Hall & Hnone). exists (S k). simpl.
    repeat split; [lia| |intros Hr; f_equal; auto].
    constructor; [now exists (Ok (Some entry))|exact Hall].
  - exists 1%nat. simpl. repeat split; [lia| |discriminate].
    rewrite take_0. repeat constructor. now exists (Ok (Some entry)).
  - exists 1%nat. simpl. repeat split; [lia| |discriminate].
    rewrite take_0. repeat constructor. now exists (Ok (Some entry)).
Qed.

(** X8.  Whatever the config-entry manager does, the scan looks up a
    prefix of the identifiers, each once and in their order, and makes no
    other call; it reaches the end of the list when it selects nothing, and
    when it selects an entry, that entry is what the last lookup returned
    and has the declared domain. *)
Theorem X8_scan_looks_up_a_prefix config ids h :
  ∃ k, (k ≤ List.length ids)%nat ∧
       Forall2 (λ id ev, ∃ r, ev = EGetEntry id r)
               (take k ids) (find_device_config_entry config ids h).2 ∧
       ((find_device_config_entry config ids h).1.1 = Ok None →
        k = List.length ids) ∧
       (∀ entry,
          (find_device_config_entry config ids h).1.1 = Ok (Some entry) →
          config !! CONF_DOMAIN = Some (VStr (domain entry)) ∧
          ∃ id, last (find_device_config_entry config ids h).2
                = Some (EGetEntry id (Ok (Some entry)))).
Proof.
  destruct (find_device_config_entry config ids h) as [[r h'] t] eqn:Hf.
  apply find_device_config_entry_scan_run in Hf. simpl.
  destruct (scan_run_prefix _ _ _ _ Hf) as (k & Hk & Hall & Hnone).
  exists k. split; [exact Hk|]. split; [exact Hall|]. split; [exact Hnone|].
  intros entry ->. destruct (scan_run_selected _ _ _ _ Hf) as (id & Hl & Hm).
  split; [exact Hm|]. now exists id.
Qed.

(** ** How many calls a run makes *)

Lemma dynamic_run_length config r t :
  dynamic_run config r t →
  (List.length t ≤ 2)%nat
  ∨ ∃ i device,
      ERegistryAsyncGet i (Ok (Some device)) ∈ t ∧
      (List.length t ≤ 4 + List.length (config_entries device))%nat.
Proof.
  destruct 1 as [e|registry Hi|registry i e Hi|registry i Hi
                 |registry i device e ts Hi Hs|registry i device ts Hi Hs
                 |registry i device entry e ts Hi Hs
                 |registry i device entry ts Hi Hs
                 |registry i device entry r ts Hi Hs];
    try (left; simpl; lia);
    right; exists i, device;
    (split; [apply elem_of_cons; right; apply elem_of_cons; now left|]);
    apply scan_run_length in Hs; simpl; rewrite ?length_app; simpl; lia.
Qed.

(** X9.  [validate] makes at most three calls when the registry returns
    no device, and otherwise at most five calls besides one lookup per
    config entry listed on the device: nothing is called twice. *)
Theorem X9_validate_call_bound config h :
  (List.length (async_validate_trigger_config config h).2 ≤ 3)%nat
  ∨ ∃ i device,
      ERegistryAsyncGet i (Ok (Some device))
        ∈ (async_validate_trigger_config config h).2 ∧
      (List.length (async_validate_trigger_config config h).2
       ≤ 5 + List.length (config_entries device))%nat.
Proof.
  destruct (async_validate_trigger_config_body_run config h) as (r0 & Hrun & _).
  destruct Hrun as [Hd|d e Hd|d platform Hd Hv Hs|d platform schema r Hd Hv Hs
                    |d platform validator r t Hd Hv Hdyn];
    try (left; simpl; lia).
  destruct (dynamic_run_length _ _ _ Hdyn) as [Hle|(i & device & Hin & Hle)].
  - left. simpl. lia.
  - right. exists i, device. split; [apply elem_of_cons; now right|simpl; lia].
Qed.

(** ** Edges *)

(** X10.  [attach] reads [config[domain]] unguarded and does not check
    the platform: without the key it raises [KeyError] before any call;
    when the resolved platform has no [async_attach_trigger] it raises
    [AttributeError] after the resolution.  In every run it makes at most
    two calls, the resolver asked for the trigger platform of
    [config[domain]] and the platform's attach given the configuration,
    the action and the trigger information it received. *)
Theorem X10_attach_edges config action trigger_info h :
  (config !! CONF_DOMAIN = None →
   async_attach_trigger config action trigger_info h
   = (Err (KeyError CONF_DOMAIN), h, []))
  ∧ (∀ d platform h1,
       config !! CONF_DOMAIN = Some d →
       async_get_device_automation_platform env d TRIGGER h = (Ok platform, h1) →
       platform_async_attach_trigger platform = None →
       async_attach_trigger config action trigger_info h
       = (Err (AttributeError "async_attach_trigger"), h1,
          [EGetPlatform d TRIGGER (Ok platform)]))
  ∧ (List.length (async_attach_trigger config action trigger_info h).2 ≤ 2)%nat
  ∧ Forall (λ ev,
              match ev with
              | EGetPlatform d ty _ => ty = TRIGGER ∧ config !! CONF_DOMAIN = Some d
              | EAttach c a i _ => c = config ∧ a = action ∧ i = trigger_info
              | _ => False
              end)
           (async_attach_trigger config action trigger_info h).2.
Proof.
  split; [|split].
  - intros Hd. unfold async_attach_trigger, get_platform, getitem, bind.
    now rewrite Hd.
  - intros d platform h1 Hd Hp Ha.
    now rewrite (async_attach_trigger_run _ _ _ _ _ Hd), Hp, Ha.
  - destruct (config !! CONF_DOMAIN) as [d|] eqn:Hd.
    + rewrite (async_attach_trigger_run _ _ _ _ _ Hd).
      destruct (async_get_device_automation_platform env d TRIGGER h)
        as [[platform|e] h1]; [|simpl; split; [lia|now repeat constructor]].
      destruct (platform_async_attach_trigger platform) as [attach|];
        [|simpl; split; [lia|now repeat constructor]].
      destruct (attach config action trigger_info h1) as [r h2].
      simpl. split; [lia|now repeat constructor].
    + unfold async_attach_trigger, get_platform, getitem, bind. rewrite Hd.
      simpl. split; [lia|constructor].
Qed.

(** X11.  A platform that has neither [async_validate_trigger_config] nor
    [TRIGGER_SCHEMA] makes [validate] fail with [AttributeError] right
    after the resolution; the [except] clause does not turn it into
    [vol.Invalid]. *)
Theorem X11_platform_without_schema_or_validator config d platform h0 h1 :
  config !! CONF_DOMAIN = Some d →
  async_get_device_automation_platform env d TRIGGER h0 = (Ok platform, h1) →
  platform_async_validate_trigger_config platform = None →
  TRIGGER_SCHEMA platform = None →
  async_validate_trigger_config config h0
  = (Err (AttributeError "TRIGGER_SCHEMA"), h1,
     [EGetPlatform d TRIGGER (Ok platform)]).
Proof.
  intros Hd Hp Hv Hs.
  apply (async_validate_trigger_config_run _ _ (Err (AttributeError "TRIGGER_SCHEMA"))).
  unfold validate_body.
  erewrite bind_Ok; [|rewrite (get_platform_run _ _ _ Hd), Hp; reflexivity].
  now rewrite Hv, Hs.
Qed.

(** X12.  On the dynamic path, a device that lists no config entry is
    rejected with [vol.Invalid] and the message "Invalid trigger
    configuration", without a call to the config-entry manager, a wait or
    a call of the validator. *)
Theorem X12_device_without_entries
    config platform validator device h0 h1 h2 t1 t2 :
  get_platform config h0 = (Ok platform, h1, t1) →
  platform_async_validate_trigger_config platform = Some validator →
  get_device config h1 = (Ok (Some device), h2, t2) →
  config_entries device = [] →
  async_validate_trigger_config config h0
  = (Err (Invalid "Invalid trigger configuration"
                  (Some (InvalidDeviceAutomationConfig ""))), h2, t1 ++ t2).
Proof.
  intros Hp Hv Hd Hnil.
  apply (async_validate_trigger_config_run _ _
           (Err (InvalidDeviceAutomationConfig ""))).
  rewrite (validate_body_dynamic _ _ _ _ _ _ Hp Hv).
  unfold validate_dynamic.
  rewrite (bind_Ok _ _ _ _ _ _ Hd), Hnil. simpl.
  now rewrite app_nil_r.
Qed.

Lemma validate_body_head config d h :
  config !! CONF_DOMAIN = Some d →
  ∃ t', (validate_body config h).2
        = EGetPlatform d TRIGGER
            (async_get_device_automation_platform env d TRIGGER h).1 :: t'.
Proof.
  intros Hd. unfold validate_body, bind. rewrite (get_platform_run _ _ _ Hd).
  destruct (async_get_device_automation_platform env d TRIGGER h)
    as [[platform|e] h1]; simpl; [|now eexists].
  destruct (platform_async_validate_trigger_config platform) as [validator|].
  - destruct (validate_dynamic validator config h1) as [[r2 h2] t2]. now eexists.
  - destruct (TRIGGER_SCHEMA platform) as [schema|]; [|now eexists].
    unfold perform. destruct (schema config h1) as [r2 h2]. now eexists.
Qed.

(** X13.  [validate] resolves the platform exactly once per call, and
    before anything else: when the configuration has a domain, the first
    call of the run is the resolver, asked from the state the run starts
    in, and no later call is a resolution. *)
Theorem X13_validate_resolves_once_and_first config d h :
  config !! CONF_DOMAIN = Some d →
  ∃ t',
    (async_validate_trigger_config config h).2
    = EGetPlatform d TRIGGER
        (async_get_device_automation_platform env d TRIGGER h).1 :: t' ∧
    Forall (λ ev, match ev with EGetPlatform _ _ _ => False | _ => True end) t'.
Proof.
  intros Hd.
  destruct (validate_body_head config d h Hd) as (t' & Hhead).
  destruct (validate_body config h) as [[r h'] t] eqn:Hb. simpl in Hhead.
  rewrite (async_validate_trigger_config_run _ _ _ _ _ Hb). simpl.
  exists t'. split; [exact Hhead|].
  apply validate_body_run in Hb. subst t.
  inversion Hb as [|d0 e Hd0|d0 platform Hd0 Hv Hs|d0 platform schema r0 Hd0 Hv Hs
                   |d0 platform validator r0 t0 Hd0 Hv Hdyn]; subst.
  - constructor.
  - constructor.
  - now repeat constructor.
  - apply Forall_forall. intros ev Hin.
    destruct ev; try done.
    now destruct (dynamic_run_no_resolution _ _ _ _ _ _ Hdyn Hin).
Qed.

(** ** Validation over a table of config entries *)

(** What the registry returns for [config[device_id]] in the state [h1],
    and the state [h2] it leaves: [dr.async_get(hass)] followed by
    [registry.async_get]. *)
Definition registry_returns (config : ConfigType) (h1 : HomeAssistant)
    (found : option DeviceEntry) (h2 : HomeAssistant) : Prop :=
  ∃ registry h' i,
    dr_async_get env h1 = (Ok registry, h') ∧
    config !! CONF_DEVICE_ID = Some i ∧
    async_get registry i h' = (Ok found, h2).

Lemma get_device_returns config h1 found h2 :
  (∃ t2, get_device config h1 = (Ok found, h2, t2)) ↔
  registry_returns config h1 found h2.
Proof.
  unfold registry_returns, get_device, bind, perform, getitem. split.
  - intros (t2 & Hrun).
    destruct (dr_async_get env h1) as [[registry|e] h']; [|discriminate].
    destruct (config !! CONF_DEVICE_ID) as [i|]; [|discriminate].
    unfold ret in Hrun.
    destruct (async_get registry i h') as [r h3] eqn:Hget.
    injection Hrun as -> -> _. now exists registry, h', i.
  - intros (registry & h' & i & -> & -> & Hget). unfold ret. rewrite Hget.
    now eexists.
Qed.

Lemma async_validate_trigger_config_trace config h :
  (async_validate_trigger_config config h).2 = (validate_body config h).2.
Proof.
  unfold async_validate_trigger_config. now rewrite try_except_translated.
Qed.

(** The calls that follow the selection of [entry]: the wait and, when it
    returns true, the platform's validator on the configuration. *)
Definition after_selection (validator : ConfigType → call ConfigType)
    (config : ConfigType) (entry : ConfigEntry) (h : HomeAssistant)
    : list event :=
  EWaitComponent entry (async_wait_component env entry h).1 ::
  match (async_wait_component env entry h).1 with
  | Ok true =>
      [EValidate config (validator config (async_wait_component env entry h).2).1]
  | _ => []
  end.

Lemma validate_selected_trace
    config platform validator device entry h0 h1 h2 h3 t1 t2 t3 :
  get_platform config h0 = (Ok platform, h1, t1) →
  platform_async_validate_trigger_config platform = Some validator →
  get_device config h1 = (Ok (Some device), h2, t2) →
  find_device_config_entry config (config_entries device) h2
    = (Ok (Some entry), h3, t3) →
  (async_validate_trigger_config config h0).2
  = t1 ++ t2 ++ t3 ++ after_selection validator config entry h3.
Proof.
  intros Hp Hv Hd Hf. rewrite async_validate_trigger_config_trace.
  rewrite (validate_body_dynamic _ _ _ _ _ _ Hp Hv).
  unfold validate_dynamic, after_selection.
  rewrite (bind_Ok _ _ _ _ _ _ Hd); simpl.
  rewrite (bind_Ok _ _ _ _ _ _ Hf); simpl.
  unfold bind, perform, ret.
  destruct (async_wait_component env entry h3) as [[ready|e] h4]; simpl;
    [|reflexivity].
  destruct ready; simpl; [|reflexivity].
  destruct (validator config h4) as [r h5]. reflexivity.
Qed.

Section ValidateOverEntryTable.

(** The config-entry manager read as a table, and the declared domain. *)
Variable entries : string → option ConfigEntry.
Hypothesis async_get_entry_reads :
  ∀ id h, async_get_entry env id h = (Ok (entries id), h).

Variable config : ConfigType.
Variable declared : value.
Hypothesis config_domain : config !! CONF_DOMAIN = Some declared.

(** No identifier listed on [device] resolves to an entry of the declared
    domain. *)
Definition no_entry_of_domain (device : DeviceEntry) : Prop :=
  ∀ id entry, id ∈ config_entries device → entries id = Some entry →
              declared ≠ VStr (domain entry).

(** The two conditions under which the module itself rejects the
    configuration, for the dynamic part run from [h1]: the registry
    returns no device for [config[device_id]], or it returns one and none
    of its identifiers resolves to an entry of the declared domain. *)
Definition device_missing_or_unmatched (h1 : HomeAssistant) : Prop :=
  (∃ h2, registry_returns config h1 None h2)
  ∨ (∃ device h2, registry_returns config h1 (Some device) h2 ∧
                  no_entry_of_domain device).

Lemma find_selects_first pre id post entry h :
  entries id = Some entry →
  declared = VStr (domain entry) →
  (∀ id' entry', id' ∈ pre → entries id' = Some entry' →
                 declared ≠ VStr (domain entry')) →
  find_device_config_entry config (pre ++ id :: post) h
  = (Ok (Some entry), h, map (looked_up entries) (pre ++ [id])).
Proof.
  intros He Hm. induction pre as [|id0 pre IH]; intros Hpre; simpl app.
  - rewrite (find_device_config_entry_cons _ _ _ _ _ _ _
               config_domain (async_get_entry_reads id h)).
    rewrite He. simpl. unfold looked_up. rewrite He.
    now rewrite (proj2 (str_ne_false _ _) Hm).
  - rewrite (find_device_config_entry_cons _ _ _ _ _ _ _
               config_domain (async_get_entry_reads id0 h)).
    rewrite IH by (intros id' entry' Hin; apply Hpre, elem_of_cons; auto).
    simpl. unfold looked_up at 3.
    destruct (entries id0) as [entry0|] eqn:He0; [|reflexivity].
    destruct (str_ne (domain entry0) declared) eqn:Hne; [reflexivity|].
    apply str_ne_false in Hne.
    destruct (Hpre id0 entry0 (list_elem_of_here _ _) He0 Hne).
Qed.

Lemma find_selects_none ids h :
  (∀ id entry, id ∈ ids → entries id = Some entry →
               declared ≠ VStr (domain entry)) →
  find_device_config_entry config ids h
  = (Ok None, h, map (looked_up entries) ids).
Proof.
  induction ids as [|id0 ids IH]; intros Hall; [reflexivity|].
  rewrite (find_device_config_entry_cons _ _ _ _ _ _ _
             config_domain (async_get_entry_reads id0 h)).
  rewrite IH by (intros id' entry' Hin; apply Hall, elem_of_cons; auto).
  simpl map. change (looked_up entries id0) with (EGetEntry id0 (Ok (entries id0))).
  destruct (entries id0) as [entry0|] eqn:He0; [|reflexivity].
  destruct (str_ne (domain entry0) declared) eqn:Hne; [reflexivity|].
  apply str_ne_false in Hne.
  destruct (Hall id0 entry0 (list_elem_of_here _ _) He0 Hne).
Qed.

Lemma device_missing_or_unmatched_run h1 :
  device_missing_or_unmatched h1 ↔
  device_absent config h1 ∨ no_entry_matches config h1.
Proof.
  unfold device_missing_or_unmatched, device_absent, no_entry_matches. split.
  - intros [(h2 & Hr)|(device & h2 & Hr & Hnone)];
      apply get_device_returns in Hr as (t2 & Hd).
    + left. now exists h2, t2.
    + right. exists device, h2, t2, h2, (map (looked_up entries) (config_entries device)).
      split; [exact Hd|]. now apply find_selects_none.
  - intros [(h2 & t2 & Hd)|(device & h2 & t2 & h3 & t3 & Hd & Hf)].
    + left. exists h2. apply get_device_returns. now exists t2.
    + right. exists device, h2. split; [apply get_device_returns; now exists t2|].
      destruct (find_device_config_entry_first_match entries async_get_entry_reads
                  config declared config_domain (config_entries device) h2)
        as (selected & t & Hrun & Hsel).
      rewrite Hrun in Hf. injection Hf as -> _ _. now destruct Hsel as [Hall _].
Qed.

(** C3.  On the dynamic-validation path, once the registry has returned
    the device, [validate] looks the identifiers listed on the device up
    in their stored order and selects the first entry whose domain equals
    the declared domain: the lookups it makes are those of the
    identifiers up to the first one that resolves to such an entry, and
    that entry is the one it waits for and, once ready, validates for.  In
    particular, for a device that lists "a", an entry of domain "other",
    and then "b", an entry of domain "light", and the declared domain
    "light", it selects "b". *)
Theorem C3_first_match_selected platform validator device h0 h1 h2 t1 t2 :
  get_platform config h0 = (Ok platform, h1, t1) →
  platform_async_validate_trigger_config platform = Some validator →
  get_device config h1 = (Ok (Some device), h2, t2) →
  (∀ pre id post entry,
     config_entries device = pre ++ id :: post →
     entries id = Some entry →
     declared = VStr (domain entry) →
     (∀ id' entry', id' ∈ pre → entries id' = Some entry' →
                    declared ≠ VStr (domain entry')) →
     (async_validate_trigger_config config h0).2
     = t1 ++ t2 ++ map (looked_up entries) (pre ++ [id]) ++
       after_selection validator config entry h2)
  ∧ (∀ a b,
       config_entries device = ["a"; "b"] →
       declared = VStr "light" →
       entries "a" = Some a → domain a = "other" →
       entries "b" = Some b → domain b = "light" →
       (async_validate_trigger_config config h0).2
       = t1 ++ t2 ++ [looked_up entries "a"; looked_up entries "b"] ++
         after_selection validator config b h2).
Proof.
  intros Hp Hv Hd.
  assert (Hfirst : ∀ pre id post entry,
            config_entries device = pre ++ id :: post →
            entries id = Some entry →
            declared = VStr (domain entry) →
            (∀ id' entry', id' ∈ pre → entries id' = Some entry' →
                           declared ≠ VStr (domain entry')) →
            (async_validate_trigger_config config h0).2
            = t1 ++ t2 ++ map (looked_up entries) (pre ++ [id]) ++
              after_selection validator config entry h2).
  { intros pre id post entry Hids He Hm Hpre.
    apply (validate_selected_trace _ platform validator device entry _ h1 h2 h2);
      try done.
    rewrite Hids. now apply find_selects_first. }
  split; [exact Hfirst|].
  intros a b Hids Hl Ha Hda Hb Hdb.
  apply (Hfirst ["a"] "b" [] b); try done.
  - now rewrite Hl, Hdb.
  - intros id' entry' Hin He'. apply list_elem_of_singleton in Hin as ->.
    rewrite Ha in He'. injection He' as <-. rewrite Hl, Hda. discriminate.
Qed.

(** C4, as amended.  On the dynamic-validation path, [validate] raises
    [vol.Invalid] with the message "Invalid trigger configuration" when
    the device is absent from the registry or no resolved config entry of
    the device has the declared domain.  Any other [vol.Invalid] it
    raises comes from a collaborator: one raised [vol.Invalid], which
    propagates as it is, or one raised the internal condition, whose
    message is kept when it is not empty and replaced by "Invalid trigger
    configuration" when it is. *)
Theorem C4_invalid_on_dynamic_path platform validator h0 h1 t1 :
  get_platform config h0 = (Ok platform, h1, t1) →
  platform_async_validate_trigger_config platform = Some validator →
  (device_missing_or_unmatched h1 →
     (async_validate_trigger_config config h0).1.1
     = Err (Invalid "Invalid trigger configuration"
                    (Some (InvalidDeviceAutomationConfig ""))))
  ∧ (∀ msg cause,
       (async_validate_trigger_config config h0).1.1 = Err (Invalid msg cause) →
       (device_missing_or_unmatched h1 ∧ msg = "Invalid trigger configuration")
       ∨ raised_by_collaborator
           (async_validate_trigger_config config h0).2 (Invalid msg cause)
       ∨ ∃ m,
           raised_by_collaborator
             (async_validate_trigger_config config h0).2
             (InvalidDeviceAutomationConfig m) ∧
           msg = str_or m "Invalid trigger configuration" ∧
           cause = Some (InvalidDeviceAutomationConfig m)).
Proof.
  intros Hp Hv.
  destruct (invalid_on_dynamic_path_run _ _ _ _ _ _ Hp Hv) as [Hraise Honly].
  split.
  - intros Hrej. now apply Hraise, device_missing_or_unmatched_run.
  - intros msg cause Hinv.
    destruct (Honly msg cause Hinv) as [[Hrej ->]|[Hc|Hm]].
    + left. split; [|reflexivity]. now apply device_missing_or_unmatched_run.
    + now right; left.
    + now right; right.
Qed.

End ValidateOverEntryTable.

End Trigger.

Arguments TRIGGER_SCHEMA {HomeAssistant TriggerActionType TriggerInfo CALLBACK_TYPE} _.
Arguments platform_async_validate_trigger_config
  {HomeAssistant TriggerActionType TriggerInfo CALLBACK_TYPE} _.
Arguments platform_async_attach_trigger
  {HomeAssistant TriggerActionType TriggerInfo CALLBACK_TYPE} _.
Arguments EGetPlatform {HomeAssistant TriggerActionType TriggerInfo CALLBACK_TYPE} d t r.
Arguments ESchema {HomeAssistant TriggerActionType TriggerInfo CALLBACK_TYPE} config r.
Arguments EDrAsyncGet {HomeAssistant TriggerActionType TriggerInfo CALLBACK_TYPE} r.
Arguments ERegistryAsyncGet
  {HomeAssistant TriggerActionType TriggerInfo CALLBACK_TYPE} device_id r.
Arguments EGetEntry {HomeAssistant TriggerActionType TriggerInfo CALLBACK_TYPE} id r.
Arguments EWaitComponent {HomeAssistant TriggerActionType TriggerInfo CALLBACK_TYPE} entry r.
Arguments EValidate {HomeAssistant TriggerActionType TriggerInfo CALLBACK_TYPE} config r.
Arguments EAttach
  {HomeAssistant TriggerActionType TriggerInfo CALLBACK_TYPE} config action trigger_info r.
Arguments device_absent {HomeAssistant TriggerActionType TriggerInfo CALLBACK_TYPE} env config h1.
Arguments no_entry_matches
  {HomeAssistant TriggerActionType TriggerInfo CALLBACK_TYPE} env config h1.
Arguments ret {HomeAssistant TriggerActionType TriggerInfo CALLBACK_TYPE A} a.
Arguments raise {HomeAssistant TriggerActionType TriggerInfo CALLBACK_TYPE A} e.
Arguments bind {HomeAssistant TriggerActionType TriggerInfo CALLBACK_TYPE A B} m f.
Arguments get_platform {HomeAssistant TriggerActionType TriggerInfo CALLBACK_TYPE} env config.
Arguments get_device {HomeAssistant TriggerActionType TriggerInfo CALLBACK_TYPE} env config.
Arguments find_device_config_entry
  {HomeAssistant TriggerActionType TriggerInfo CALLBACK_TYPE} env config entry_ids.
Arguments validate_dynamic
  {HomeAssistant TriggerActionType TriggerInfo CALLBACK_TYPE} env validator config.
Arguments validate_body {HomeAssistant TriggerActionType TriggerInfo CALLBACK_TYPE} env config.
Arguments async_validate_trigger_config
  {HomeAssistant TriggerActionType TriggerInfo CALLBACK_TYPE} env config.
Arguments async_attach_trigger
  {HomeAssistant TriggerActionType TriggerInfo CALLBACK_TYPE} env config action trigger_info.

(** * A small installation

    Three config entries, three devices and three platforms, on which the
    statements above are run.  The state of the instance counts the
    awaited calls; lookups in the registries leave it as it is. *)

Definition entry_a : ConfigEntry := {| entry_id := "a"; domain := "other" |}.
Definition entry_b : ConfigEntry := {| entry_id := "b"; domain := "light" |}.
Definition entry_c : ConfigEntry := {| entry_id := "c"; domain := "cover" |}.

Definition demo_entries (id : string) : option ConfigEntry :=
  if String.eqb id "a" then Some entry_a
  else if String.eqb id "b" then Some entry_b
  else if String.eqb id "c" then Some entry_c
  else None.

Definition lamp : DeviceEntry :=
  {| device_entry_id := "lamp"; config_entries := ["a"; "b"] |}.
Definition blind : DeviceEntry :=
  {| device_entry_id := "blind"; config_entries := ["c"] |}.
Definition relic : DeviceEntry :=
  {| device_entry_id := "relic"; config_entries := ["gone"; "a"] |}.

Definition demo_devices (device_id : value) : option DeviceEntry :=
  match device_id with
  | VStr s =>
      if String.eqb s "lamp" then Some lamp
      else if String.eqb s "blind" then Some blind
      else if String.eqb s "relic" then Some relic
      else None
  | _ => None
  end.

Definition demo_registry : DeviceRegistry nat :=
  {| async_get := λ device_id h, (Ok (demo_devices device_id), h) |}.

Definition Platform : Type := DeviceAutomationTriggerProtocol nat string string string.

(** A platform with a dynamic validator, which marks what it checked. *)
Definition light_validator (config : ConfigType) : call nat ConfigType :=
  λ h, (Ok (<["checked" := VBool true]> config), S h).

Definition light_attach (config : ConfigType) (action trigger_info : string)
    : call nat string :=
  λ h, (Ok action, S h).

Definition light_platform : Platform :=
  {| TRIGGER_SCHEMA := None;
     platform_async_validate_trigger_config := Some light_validator;
     platform_async_attach_trigger := Some light_attach |}.

(** A platform with a static schema only. *)
Definition switch_schema (config : ConfigType) : call nat ConfigType :=
  λ h, (Ok (<["platform" := VStr "device"]> config), h).

Definition switch_platform : Platform :=
  {| TRIGGER_SCHEMA := Some switch_schema;
     platform_async_validate_trigger_config := None;
     platform_async_attach_trigger := Some light_attach |}.

(** A platform whose validator rejects every configuration with the
    internal condition, and whose attachment fails. *)
Definition cover_validator (config : ConfigType) : call nat ConfigType :=
  λ h, (Err (InvalidDeviceAutomationConfig "Unknown trigger"), S h).

Definition cover_attach (config : ConfigType) (action trigger_info : string)
    : call nat string :=
  λ h, (Err (OtherError "HomeAssistantError" "cover offline"), S h).

Definition cover_platform : Platform :=
  {| TRIGGER_SCHEMA := None;
     platform_async_validate_trigger_config := Some cover_validator;
     platform_async_attach_trigger := Some cover_attach |}.

Definition demo_resolver (d : value) (t : DeviceAutomationType) : call nat Platform :=
  λ h,
    match d with
    | VStr s =>
        if String.eqb s "light" then (Ok light_platform, S h)
        else if String.eqb s "switch" then (Ok switch_platform, S h)
        else if String.eqb s "cover" then (Ok cover_platform, S h)
        else (Err (InvalidDeviceAutomationConfig "Integration not found"), S h)
    | _ => (Err (OtherError "TypeError" "domain is not a string"), S h)
    end.

(** The collaborators; [ready] is what every wait reports. *)
Definition demo (ready : bool) : Collaborators nat string string string :=
  {| async_get_device_automation_platform := demo_resolver;
     dr_async_get := λ h, (Ok demo_registry, h);
     async_get_entry := λ id h, (Ok (demo_entries id), h);
     async_wait_component := λ entry h, (Ok ready, S h) |}.

Definition trigger_of (d device_id : string) : ConfigType :=
  <[CONF_DOMAIN := VStr d]> (<[CONF_DEVICE_ID := VStr device_id]>
    ({["type" := VStr "turned_on"]})).

Definition lamp_trigger : ConfigType := trigger_of "light" "lamp".
Definition blind_trigger : ConfigType := trigger_of "cover" "blind".
Definition switch_trigger : ConfigType := trigger_of "switch" "lamp".
Definition relic_trigger : ConfigType := trigger_of "light" "relic".
Definition ghost_trigger : ConfigType := trigger_of "light" "ghost".
Definition nowhere_trigger : ConfigType := trigger_of "nowhere" "lamp".

Lemma C1_witness :
  ∃ t, async_validate_trigger_config (demo false) lamp_trigger 0
       = (Ok lamp_trigger, 2, t).
Proof.
  eexists.
  eapply (C1_never_ready_returns_config nat string string string (demo false)
            lamp_trigger light_platform light_validator lamp entry_b 0 1 1 1 2).
  - vm_compute. reflexivity.
  - reflexivity.
  - vm_compute. reflexivity.
  - vm_compute. reflexivity.
  - reflexivity.
Defined.

Lemma C2_witness :
  (async_validate_trigger_config (demo true) switch_trigger 0).1
  = (Ok (<["platform" := VStr "device"]> switch_trigger), 1).
Proof.
  pose proof (C2_static_schema nat string string string (demo true)
                switch_trigger (VStr "switch") switch_platform switch_schema
                0 1 (Ok (<["platform" := VStr "device"]> switch_trigger)) 1
                eq_refl eq_refl eq_refl eq_refl eq_refl) as [Hrun _].
  rewrite Hrun. reflexivity.
Defined.

Lemma C3_witness :
  (async_validate_trigger_config (demo true) lamp_trigger 0).2
  = [EGetPlatform (VStr "light") TRIGGER (Ok light_platform);
     EDrAsyncGet (Ok demo_registry);
     ERegistryAsyncGet (VStr "lamp") (Ok (Some lamp));
     EGetEntry "a" (Ok (Some entry_a));
     EGetEntry "b" (Ok (Some entry_b));
     EWaitComponent entry_b (Ok true);
     EValidate lamp_trigger (Ok (<["checked" := VBool true]> lamp_trigger))].
Proof.
  pose proof (C3_first_match_selected nat string string string (demo true)
                demo_entries (λ id h, eq_refl) lamp_trigger (VStr "light") eq_refl
                light_platform light_validator lamp 0 1 1
                [EGetPlatform (VStr "light") TRIGGER (Ok light_platform)]
                [EDrAsyncGet (Ok demo_registry);
                 ERegistryAsyncGet (VStr "lamp") (Ok (Some lamp))]
                eq_refl eq_refl eq_refl) as [_ Hab].
  rewrite (Hab entry_a entry_b eq_refl eq_refl eq_refl eq_refl eq_refl eq_refl).
  reflexivity.
Defined.

Lemma C5_witness :
  (async_validate_trigger_config (demo true) lamp_trigger 0).1
  = (Ok (<["checked" := VBool true]> lamp_trigger), 3).
Proof.
  pose proof (C5_ready_delegates nat string string string (demo true)
                lamp_trigger light_platform light_validator lamp entry_b
                0 1 1 1 2 3
                [EGetPlatform (VStr "light") TRIGGER (Ok light_platform)]
                [EDrAsyncGet (Ok demo_registry);
                 ERegistryAsyncGet (VStr "lamp") (Ok (Some lamp))]
                [EGetEntry "a" (Ok (Some entry_a));
                 EGetEntry "b" (Ok (Some entry_b))]
                (Ok (<["checked" := VBool true]> lamp_trigger))
                eq_refl eq_refl eq_refl eq_refl eq_refl eq_refl) as [Hrun _].
  rewrite Hrun. reflexivity.
Defined.

Lemma C6_witness :
  (async_attach_trigger (demo true) lamp_trigger "action" "info" 0).1
  = (Ok "action", 2).
Proof.
  pose proof (C6_attach_delegates nat string string string (demo true)
                lamp_trigger "action" "info" (VStr "light") light_platform
                light_attach 0 1 (Ok "action") 2
                eq_refl eq_refl eq_refl eq_refl) as [Hrun _].
  rewrite Hrun. reflexivity.
Defined.

Lemma C9_witness :
  (find_device_config_entry (demo true) lamp_trigger ["gone"; "b"] 0).1
  = (find_device_config_entry (demo true) lamp_trigger ["b"] 0).1.
Proof.
  pose proof (C9_unresolved_skipped nat string string string (demo true)
                demo_entries (λ id h, eq_refl) lamp_trigger (VStr "light") eq_refl
                ["gone"; "b"] 0) as [Hskip _].
  exact Hskip.
Defined.

Lemma C10_witness :
  async_validate_trigger_config (demo true) (delete CONF_DOMAIN lamp_trigger) 0
  = (Err (KeyError "domain"), 0, []).
Proof.
  apply (proj1 (C10_unguarded_keys nat string string string (demo true)
                  (delete CONF_DOMAIN lamp_trigger) 0)).
  reflexivity.
Defined.

Lemma C4_witness :
  (async_validate_trigger_config (demo true) relic_trigger 0).1.1
  = Err (Invalid "Invalid trigger configuration"
                 (Some (InvalidDeviceAutomationConfig ""))).
Proof.
  pose proof (C4_invalid_on_dynamic_path nat string string string (demo true)
                demo_entries (λ id h, eq_refl) relic_trigger (VStr "light") eq_refl
                light_platform light_validator 0 1
                [EGetPlatform (VStr "light") TRIGGER (Ok light_platform)]
                eq_refl eq_refl) as [Hraise _].
  apply Hraise. right. exists relic, 1. split.
  - exists demo_registry, 1, (VStr "relic"). repeat split.
  - intros id entry Hin He.
    apply elem_of_cons in Hin as [->|Hin]; [vm_compute in He; discriminate|].
    apply list_elem_of_singleton in Hin as ->.
    vm_compute in He. injection He as <-. discriminate.
Defined.

(** The claim C4 as it was stated fails for the cover trigger: the device
    is in the registry and its entry "c" has the declared domain, and yet
    [validate] raises [vol.Invalid], because the platform's validator
    raised the internal condition. *)
Lemma C4_counterexample :
  (get_platform (demo true) blind_trigger 0).1 = (Ok cover_platform, 1)
  ∧ platform_async_validate_trigger_config cover_platform = Some cover_validator
  ∧ (get_device (demo true) blind_trigger 1).1 = (Ok (Some blind), 1)
  ∧ (find_device_config_entry (demo true) blind_trigger (config_entries blind) 1).1
    = (Ok (Some entry_c), 1)
  ∧ ¬ (device_absent (demo true) blind_trigger 1
       ∨ no_entry_matches (demo true) blind_trigger 1)
  ∧ (async_validate_trigger_config (demo true) blind_trigger 0).1.1
    = Err (Invalid "Unknown trigger"
                   (Some (InvalidDeviceAutomationConfig "Unknown trigger"))).
Proof.
  repeat split; try reflexivity.
  intros [(h2 & t2 & Hd)|(device & h2 & t2 & h3 & t3 & Hd & Hf)].
  - vm_compute in Hd. discriminate.
  - vm_compute in Hd. injection Hd as <- <- <-.
    vm_compute in Hf. discriminate.
Qed.

Lemma C7_witness :
  (async_attach_trigger (demo true) nowhere_trigger "action" "info" 0).1
  = (Err (InvalidDeviceAutomationConfig "Integration not found"), 1).
Proof.
  pose proof (C7_resolution_failure nat string string string (demo true)
                nowhere_trigger (VStr "nowhere")
                (InvalidDeviceAutomationConfig "Integration not found") 0 1
                eq_refl eq_refl) as [Hattach _].
  rewrite Hattach. reflexivity.
Defined.

(** The claim C7 as it was stated fails for a domain the resolver does not
    know: the resolver raises the internal condition, and [validate] raises
    [vol.Invalid] in its place. *)
Lemma C7_counterexample :
  demo_resolver (VStr "nowhere") TRIGGER 0
  = (Err (InvalidDeviceAutomationConfig "Integration not found"), 1)
  ∧ (async_validate_trigger_config (demo true) nowhere_trigger 0).1.1
    = Err (Invalid "Integration not found"
                   (Some (InvalidDeviceAutomationConfig "Integration not found")))
  ∧ (async_validate_trigger_config (demo true) nowhere_trigger 0).1.1
    ≠ Err (InvalidDeviceAutomationConfig "Integration not found").
Proof.
  repeat split; try reflexivity. vm_compute. discriminate.
Qed.

Lemma C8_witness :
  (async_attach_trigger (demo true) blind_trigger "action" "info" 0).1
  = (Err (OtherError "HomeAssistantError" "cover offline"), 2).
Proof.
  pose proof (C8_platform_failure nat string string string (demo true)
                blind_trigger (VStr "cover") cover_platform
                (OtherError "HomeAssistantError" "cover offline") 0 1 2
                eq_refl eq_refl) as [Hattach _].
  rewrite (Hattach cover_attach "action" "info" eq_refl eq_refl). reflexivity.
Defined.

(** The claim C8 as it was stated fails for the cover trigger: the
    platform's validator raises the internal condition, and [validate]
    raises [vol.Invalid] in its place. *)
Lemma C8_counterexample :
  cover_validator blind_trigger 2
  = (Err (InvalidDeviceAutomationConfig "Unknown trigger"), 3)
  ∧ (async_validate_trigger_config (demo true) blind_trigger 0).1
    = (Err (Invalid "Unknown trigger"
                    (Some (InvalidDeviceAutomationConfig "Unknown trigger"))), 3)
  ∧ (async_validate_trigger_config (demo true) blind_trigger 0).1.1
    ≠ Err (InvalidDeviceAutomationConfig "Unknown trigger").
Proof.
  repeat split; try reflexivity. vm_compute. discriminate.
Qed.

(** ** Further runs *)

(** A device none of whose resolved entries has the declared domain. *)
Example relic_trigger_rejected :
  (async_validate_trigger_config (demo true) relic_trigger 0).1
  = (Err (Invalid "Invalid trigger configuration"
                  (Some (InvalidDeviceAutomationConfig ""))), 1).
Proof. reflexivity. Qed.

(** The calls [validate] makes for the lamp, in order. *)
Example lamp_trigger_trace :
  (async_validate_trigger_config (demo true) lamp_trigger 0).2
  = [EGetPlatform (VStr "light") TRIGGER (Ok light_platform);
     EDrAsyncGet (Ok demo_registry);
     ERegistryAsyncGet (VStr "lamp") (Ok (Some lamp));
     EGetEntry "a" (Ok (Some entry_a));
     EGetEntry "b" (Ok (Some entry_b));
     EWaitComponent entry_b (Ok true);
     EValidate lamp_trigger (Ok (<["checked" := VBool true]> lamp_trigger))].
Proof. reflexivity. Qed.

(** A configuration without [device_id] on the dynamic path. *)
Example missing_device_id :
  (async_validate_trigger_config (demo true) (delete CONF_DEVICE_ID lamp_trigger) 0).1
  = (Err (KeyError "device_id"), 1).
Proof. reflexivity. Qed.

(** * A second installation

    The resolver knows a platform that has both a schema and a validator
    and no attachment, and returns a platform without any member for every
    other domain; the registry returns the same device, which lists no
    config entry, for every identifier. *)

Definition hybrid_platform : Platform :=
  {| TRIGGER_SCHEMA := Some switch_schema;
     platform_async_validate_trigger_config := Some light_validator;
     platform_async_attach_trigger := None |}.

Definition bare_platform : Platform :=
  {| TRIGGER_SCHEMA := None;
     platform_async_validate_trigger_config := None;
     platform_async_attach_trigger := None |}.

Definition shell : DeviceEntry :=
  {| device_entry_id := "shell"; config_entries := [] |}.

Definition lab_registry : DeviceRegistry nat :=
  {| async_get := λ device_id h, (Ok (Some shell), h) |}.

Definition lab_resolver (d : value) (t : DeviceAutomationType) : call nat Platform :=
  λ h,
    match d with
    | VStr s =>
        if String.eqb s "hybrid" then (Ok hybrid_platform, S h)
        else (Ok bare_platform, S h)
    | _ => (Err (OtherError "TypeError" "domain is not a string"), S h)
    end.

Definition lab : Collaborators nat string string string :=
  {| async_get_device_automation_platform := lab_resolver;
     dr_async_get := λ h, (Ok lab_registry, h);
     async_get_entry := λ id h, (Ok (demo_entries id), h);
     async_wait_component := λ entry h, (Ok true, S h) |}.

Definition hybrid_trigger : ConfigType := trigger_of "hybrid" "shell".
Definition bare_trigger : ConfigType := trigger_of "bare" "shell".

Lemma X2_witness :
  @nil (event nat string string string) = [] ∧
  (async_validate_trigger_config (demo true) blind_trigger 0).1.1
  = translated (Err (InvalidDeviceAutomationConfig "Unknown trigger")).
Proof.
  exact (X2_validate_fails_fast nat string string string (demo true)
           blind_trigger 0
           [EGetPlatform (VStr "cover") TRIGGER (Ok cover_platform);
            EDrAsyncGet (Ok demo_registry);
            ERegistryAsyncGet (VStr "blind") (Ok (Some blind));
            EGetEntry "c" (Ok (Some entry_c));
            EWaitComponent entry_c (Ok true)]
           (EValidate blind_trigger
              (Err (InvalidDeviceAutomationConfig "Unknown trigger")))
           [] (InvalidDeviceAutomationConfig "Unknown trigger")
           eq_refl eq_refl).
Defined.


Lemma X4_witness :
  lamp_trigger !! CONF_DOMAIN = Some (VStr (domain entry_b)) ∧
  ∃ id i device,
    EGetEntry id (Ok (Some entry_b))
      ∈ (async_validate_trigger_config (demo true) lamp_trigger 0).2 ∧
    id ∈ config_entries device ∧
    ERegistryAsyncGet i (Ok (Some device))
      ∈ (async_validate_trigger_config (demo true) lamp_trigger 0).2 ∧
    lamp_trigger !! CONF_DEVICE_ID = Some i.
Proof.
  apply (X4_wait_only_for_matching_entry nat string string string (demo true)
           lamp_trigger 0 entry_b (Ok true)).
  rewrite lamp_trigger_trace. repeat constructor.
Defined.

Lemma X6_witness :
  Forall (λ ev : event nat string string string,
            match ev with ESchema _ _ => False | _ => True end)
         (async_validate_trigger_config lab hybrid_trigger 0).2.
Proof.
  apply (X6_validator_precedes_schema nat string string string lab
           hybrid_trigger 0 (VStr "hybrid") TRIGGER hybrid_platform).
  - apply list_elem_of_here.
  - now exists light_validator.
Defined.

Lemma X7_witness :
  (lamp_trigger = lamp_trigger ∧
   ∃ entry, last (async_validate_trigger_config (demo false) lamp_trigger 0).2
            = Some (EWaitComponent entry (Ok false)))
  ∨ last (async_validate_trigger_config (demo false) lamp_trigger 0).2
    = Some (ESchema lamp_trigger (Ok lamp_trigger))
  ∨ last (async_validate_trigger_config (demo false) lamp_trigger 0).2
    = Some (EValidate lamp_trigger (Ok lamp_trigger)).
Proof.
  apply (X7_returned_config_provenance nat string string string (demo false)
           lamp_trigger 0 lamp_trigger).
  reflexivity.
Defined.

Lemma X11_witness :
  (async_validate_trigger_config lab bare_trigger 0).1
  = (Err (AttributeError "TRIGGER_SCHEMA"), 1).
Proof.
  rewrite (X11_platform_without_schema_or_validator nat string string string lab
             bare_trigger (VStr "bare") bare_platform 0 1
             eq_refl eq_refl eq_refl eq_refl).
  reflexivity.
Defined.

Lemma X12_witness :
  (async_validate_trigger_config lab hybrid_trigger 0).1
  = (Err (Invalid "Invalid trigger configuration"
                  (Some (InvalidDeviceAutomationConfig ""))), 1).
Proof.
  rewrite (X12_device_without_entries nat string string string lab
             hybrid_trigger hybrid_platform light_validator shell 0 1 1
             [EGetPlatform (VStr "hybrid") TRIGGER (Ok hybrid_platform)]
             [EDrAsyncGet (Ok lab_registry);
              ERegistryAsyncGet (VStr "shell") (Ok (Some shell))]
             eq_refl eq_refl eq_refl eq_refl).
  reflexivity.
Defined.

Lemma X13_witness :
  ∃ t',
    (async_validate_trigger_config (demo true) lamp_trigger 0).2
    = EGetPlatform (VStr "light") TRIGGER
        (demo_resolver (VStr "light") TRIGGER 0).1
      :: t' ∧
    Forall (λ ev : event nat string string string,
              match ev with EGetPlatform _ _ _ => False | _ => True end) t'.
Proof.
  exact (X13_validate_resolves_once_and_first nat string string string (demo true)
           lamp_trigger (VStr "light") 0 eq_refl).
Defined.

Lemma X10_witness :
  async_attach_trigger lab hybrid_trigger "action" "info" 0
  = (Err (AttributeError "async_attach_trigger"), 1,
     [EGetPlatform (VStr "hybrid") TRIGGER (Ok hybrid_platform)]).
Proof.
  exact (proj1 (proj2 (X10_attach_edges nat string string string lab
                         hybrid_trigger "action" "info" 0))
           (VStr "hybrid") hybrid_platform 1 eq_refl eq_refl eq_refl).
Defined.
